(** * Monthly benefits pipeline of the HR back office

    A shallow embedding of the benefit model (models/Benefit.js), of the
    Mongoose-backed benefit routes (routes/benefits.js) and of the in-memory
    demo server's benefit routes, with the properties of the calculators,
    the deduction ledger, the approval / Flash submission workflow and the
    statistics rollup.

    Conventions.
    - Money and day counts are JavaScript Numbers in the source; they are
      integers here (an amount in the smallest currency unit), so [Math.max],
      [+], [-] and [*] are the operations of [Z].  A sum is taken in the
      order [reduce] takes it, from 0 and left to right; the statements
      about deductions do not reorder the terms of a sum.
    - A document is modelled after Mongoose's casting: each field has the
      type its schema declares.  Fields that no modelled operation reads or
      writes (notes, timesheetData, scheduleFile, paymentDate, ...) are left
      out of the records.
    - [new Date()] / [Date.now()] and [req.user._id] are inputs of the
      handlers ([now], [uid]).
    - The MongoDB collection is a finite map from [_id] to document; the
      demo server's [demoBenefits] array, which the demo server uses without
      declaring it, is an input of its handlers: a list of objects, each
      paired with its [_id].
    - [{ ...stored, ...body }] is the field-wise override of the schema's
      fields.
    - [save()] validates the document against the schema (Mongoose ^7.5.0,
      the release package.json asks for); a failure is caught by the
      route, which answers 500 and stores nothing.  Stored documents have
      passed that validation; what a route can newly violate is written out
      in the route. *)

From stdpp Require Import base numbers list strings gmap pretty.

Open Scope Z_scope.

(** ** Data model (benefitSchema) *)

Inductive PaymentStatus := Pending | Calculated | Approved | Paid | Cancelled.

Inductive FlashStatus := FlashPending | FlashProcessing | FlashCompleted | FlashFailed.

Inductive DeductionType := Absence | Holiday | Vacation | Other.

#[global] Instance PaymentStatus_eq_dec : EqDecision PaymentStatus.
Proof. solve_decision. Defined.

#[global] Instance FlashStatus_eq_dec : EqDecision FlashStatus.
Proof. solve_decision. Defined.

#[global] Instance DeductionType_eq_dec : EqDecision DeductionType.
Proof. solve_decision. Defined.

Record Deduction := mkDeduction {
  date : Z;                 (* a Date, as milliseconds since the epoch *)
  amount : Z;
  reason : string;
  dtype : DeductionType;    (* the schema's [type] *)
  recordedBy : string;
  recordedAt : Z
}.

Record ValeRefeicao := mkVR {
  vr_enabled : bool;
  vr_dailyValue : Z;
  vr_businessDays : Z;
  vr_saturdays : Z;
  vr_totalDays : Z;
  vr_totalAmount : Z;
  vr_deductions : list Deduction;
  vr_finalAmount : Z
}.

Record ValeTransporte := mkVT {
  vt_enabled : bool;
  vt_fixedAmount : Z;
  vt_dailyValue : Z;
  vt_totalDays : Z;
  vt_totalAmount : Z;
  vt_deductions : list Deduction;
  vt_finalAmount : Z
}.

Record Mobilidade := mkMob {
  mob_enabled : bool;
  mob_monthlyValue : Z
}.

Record FlashPayment := mkFlash {
  sent : bool;
  sentAt : option Z;
  sentBy : option string;
  flashReference : option string;
  flashStatus : FlashStatus
}.

Record Benefit := mkBenefit {
  employeeId : string;
  month : string;           (* YYYY-MM *)
  valeRefeicao : ValeRefeicao;
  valeTransporte : ValeTransporte;
  mobilidade : Mobilidade;
  paymentStatus : PaymentStatus;
  flashPayment : FlashPayment;
  createdBy : string;
  updatedBy : option string
}.

(** Field assignments [this.f = v]. *)

Definition set_valeRefeicao (v : ValeRefeicao) (b : Benefit) : Benefit :=
  mkBenefit (employeeId b) (month b) v (valeTransporte b) (mobilidade b)
            (paymentStatus b) (flashPayment b) (createdBy b) (updatedBy b).

Definition set_valeTransporte (v : ValeTransporte) (b : Benefit) : Benefit :=
  mkBenefit (employeeId b) (month b) (valeRefeicao b) v (mobilidade b)
            (paymentStatus b) (flashPayment b) (createdBy b) (updatedBy b).

Definition set_mobilidade (v : Mobilidade) (b : Benefit) : Benefit :=
  mkBenefit (employeeId b) (month b) (valeRefeicao b) (valeTransporte b) v
            (paymentStatus b) (flashPayment b) (createdBy b) (updatedBy b).

Definition set_paymentStatus (s : PaymentStatus) (b : Benefit) : Benefit :=
  mkBenefit (employeeId b) (month b) (valeRefeicao b) (valeTransporte b)
            (mobilidade b) s (flashPayment b) (createdBy b) (updatedBy b).

Definition set_flashPayment (f : FlashPayment) (b : Benefit) : Benefit :=
  mkBenefit (employeeId b) (month b) (valeRefeicao b) (valeTransporte b)
            (mobilidade b) (paymentStatus b) f (createdBy b) (updatedBy b).

Definition set_updatedBy (u : string) (b : Benefit) : Benefit :=
  mkBenefit (employeeId b) (month b) (valeRefeicao b) (valeTransporte b)
            (mobilidade b) (paymentStatus b) (flashPayment b) (createdBy b)
            (Some u).

(** [deductions.reduce((sum, deduction) => sum + deduction.amount, 0)]:
    from 0, left to right. *)
Definition sumDeductions (ds : list Deduction) : Z :=
  foldl (fun sum deduction => sum + amount deduction) 0 ds.

(** ** The benefit model's methods (benefitSchema.methods, .virtual) *)

Module Model.

(** Virtual [totalBenefitAmount]. *)
Definition totalBenefitAmount (this : Benefit) : Z :=
  let total := 0 in
  let total := if vr_enabled (valeRefeicao this)
               then total + vr_finalAmount (valeRefeicao this) else total in
  let total := if vt_enabled (valeTransporte this)
               then total + vt_finalAmount (valeTransporte this) else total in
  let total := if mob_enabled (mobilidade this)
               then total + mob_monthlyValue (mobilidade this) else total in
  total.

(** [calculateVR]: the returned number and the document after the call. *)
Definition calculateVR (this : Benefit) : Z * Benefit :=
  let vr := valeRefeicao this in
  if negb (vr_enabled vr) then (0, this)
  else
    let totalDays := vr_businessDays vr + vr_saturdays vr in
    let totalAmount := totalDays * vr_dailyValue vr in
    let totalDeductions := sumDeductions (vr_deductions vr) in
    let finalAmount := Z.max 0 (totalAmount - totalDeductions) in
    (finalAmount,
     set_valeRefeicao
       (mkVR (vr_enabled vr) (vr_dailyValue vr) (vr_businessDays vr)
             (vr_saturdays vr) totalDays totalAmount (vr_deductions vr)
             finalAmount) this).

(** [calculateVT]. *)
Definition calculateVT (this : Benefit) : Z * Benefit :=
  let vt := valeTransporte this in
  if negb (vt_enabled vt) then (0, this)
  else
    let totalAmount := vt_fixedAmount vt in
    let totalDeductions := sumDeductions (vt_deductions vt) in
    let finalAmount := Z.max 0 (totalAmount - totalDeductions) in
    (finalAmount,
     set_valeTransporte
       (mkVT (vt_enabled vt) (vt_fixedAmount vt) (vt_dailyValue vt)
             (vt_totalDays vt) totalAmount (vt_deductions vt)
             finalAmount) this).

Definition push_vr (d : Deduction) (this : Benefit) : Benefit :=
  let vr := valeRefeicao this in
  set_valeRefeicao
    (mkVR (vr_enabled vr) (vr_dailyValue vr) (vr_businessDays vr)
          (vr_saturdays vr) (vr_totalDays vr) (vr_totalAmount vr)
          (vr_deductions vr ++ [d]) (vr_finalAmount vr)) this.

Definition push_vt (d : Deduction) (this : Benefit) : Benefit :=
  let vt := valeTransporte this in
  set_valeTransporte
    (mkVT (vt_enabled vt) (vt_fixedAmount vt) (vt_dailyValue vt)
          (vt_totalDays vt) (vt_totalAmount vt)
          (vt_deductions vt ++ [d]) (vt_finalAmount vt)) this.

(** [addDeduction(benefitType, deductionData)]: the string dispatch, then
    both calculators, whose return values are dropped. *)
Definition addDeduction (benefitType : string) (deductionData : Deduction)
    (this : Benefit) : Benefit :=
  let this :=
    if String.eqb benefitType "VR" then push_vr deductionData this
    else if String.eqb benefitType "VT" then push_vt deductionData this
    else this in
  let this := snd (calculateVR this) in
  let this := snd (calculateVT this) in
  this.

(** [sendToFlash(userId)]. *)
Definition sendToFlash (userId : string) (now : Z) (this : Benefit) : Benefit :=
  let fp := flashPayment this in
  let this :=
    set_flashPayment
      (mkFlash true (Some now) (Some userId) (flashReference fp) FlashPending)
      this in
  set_paymentStatus Approved this.

End Model.

(** ** Requests, responses and the persistence layer *)

(** [`${year}-${month.toString().padStart(2, '0')}`] *)
Definition padStart (targetLength : nat) (padString : string) (s : string) : string :=
  String.concat "" (replicate (targetLength - String.length s) padString) +:+ s.

Definition monthStr (year month : string) : string :=
  year +:+ "-" +:+ padStart 2 "0" month.

(** The sub-documents of a request body: every key is optional, and
    [{ ...stored, ...body }] lets each key that is present replace the
    stored one. *)

Record VRBody := mkVRBody {
  b_vr_enabled : option bool;
  b_vr_dailyValue : option Z;
  b_vr_businessDays : option Z;
  b_vr_saturdays : option Z;
  b_vr_totalDays : option Z;
  b_vr_totalAmount : option Z;
  b_vr_deductions : option (list Deduction);
  b_vr_finalAmount : option Z
}.

Record VTBody := mkVTBody {
  b_vt_enabled : option bool;
  b_vt_fixedAmount : option Z;
  b_vt_dailyValue : option Z;
  b_vt_totalDays : option Z;
  b_vt_totalAmount : option Z;
  b_vt_deductions : option (list Deduction);
  b_vt_finalAmount : option Z
}.

Record MobBody := mkMobBody {
  b_mob_enabled : option bool;
  b_mob_monthlyValue : option Z
}.

Definition spreadVR (stored : ValeRefeicao) (body : VRBody) : ValeRefeicao :=
  mkVR (default (vr_enabled stored) (b_vr_enabled body))
       (default (vr_dailyValue stored) (b_vr_dailyValue body))
       (default (vr_businessDays stored) (b_vr_businessDays body))
       (default (vr_saturdays stored) (b_vr_saturdays body))
       (default (vr_totalDays stored) (b_vr_totalDays body))
       (default (vr_totalAmount stored) (b_vr_totalAmount body))
       (default (vr_deductions stored) (b_vr_deductions body))
       (default (vr_finalAmount stored) (b_vr_finalAmount body)).

Definition spreadVT (stored : ValeTransporte) (body : VTBody) : ValeTransporte :=
  mkVT (default (vt_enabled stored) (b_vt_enabled body))
       (default (vt_fixedAmount stored) (b_vt_fixedAmount body))
       (default (vt_dailyValue stored) (b_vt_dailyValue body))
       (default (vt_totalDays stored) (b_vt_totalDays body))
       (default (vt_totalAmount stored) (b_vt_totalAmount body))
       (default (vt_deductions stored) (b_vt_deductions body))
       (default (vt_finalAmount stored) (b_vt_finalAmount body)).

Definition spreadMob (stored : Mobilidade) (body : MobBody) : Mobilidade :=
  mkMob (default (mob_enabled stored) (b_mob_enabled body))
        (default (mob_monthlyValue stored) (b_mob_monthlyValue body)).

(** The three optional sub-documents of a calculate request. *)
Definition applyBody (vr : option VRBody) (vt : option VTBody)
    (mob : option MobBody) (benefit : Benefit) : Benefit :=
  let benefit := match vr with
                 | Some body => set_valeRefeicao (spreadVR (valeRefeicao benefit) body) benefit
                 | None => benefit
                 end in
  let benefit := match vt with
                 | Some body => set_valeTransporte (spreadVT (valeTransporte benefit) body) benefit
                 | None => benefit
                 end in
  match mob with
  | Some body => set_mobilidade (spreadMob (mobilidade benefit) body) benefit
  | None => benefit
  end.

(** [new Benefit({ employeeId, month, year, createdBy })]: the schema's
    defaults. *)
Definition newBenefit (employeeId month createdBy : string) : Benefit :=
  mkBenefit employeeId month
            (mkVR true 0 22 0 22 0 [] 0)
            (mkVT true 0 0 22 0 [] 0)
            (mkMob false 0)
            Pending
            (mkFlash false None None None FlashPending)
            createdBy None.

(** An HTTP answer: [res.json(body)], or [res.status(404|500).json({ error })]. *)
Inductive Response (A : Type) :=
| Ok (body : A)
| NotFound (error : string)
| ServerError (error : string).
Arguments Ok {A} body.
Arguments NotFound {A} error.
Arguments ServerError {A} error.

Record BenefitBody := mkBenefitBody {
  bb_message : string;
  bb_benefit : Benefit
}.

Record EmployeeDatum := mkEmployeeDatum {
  ed_employeeId : string;
  ed_amount : Z;
  ed_vrAmount : Z;
  ed_vtAmount : Z;
  ed_mobilidadeAmount : Z
}.

Record FlashResponse := mkFlashResponse {
  fr_success : bool;
  fr_reference : string;
  fr_totalAmount : Z;
  fr_employeeCount : nat;
  fr_status : FlashStatus
}.

Record FlashBody := mkFlashBody {
  fb_message : string;
  fb_flashResponse : FlashResponse;
  fb_totalAmount : Z;
  fb_employeeData : list EmployeeDatum
}.

Record Statistics := mkStatistics {
  totalVR : Z;
  totalVT : Z;
  totalMobilidade : Z;
  totalAmount : Z;
  employeeCount : Z;
  pendingCount : Z;
  calculatedCount : Z;
  approvedCount : Z;
  paidCount : Z
}.

(** The collection of benefit documents, keyed by [_id]. *)
Abbreviation Collection := (gmap string Benefit).

(** [Benefit.find(query)]: the matching documents with their [_id]. *)
Definition find (query : string * Benefit -> Prop)
    `{!forall kb, Decision (query kb)} (db : Collection) : list (string * Benefit) :=
  filter query (map_to_list db).

(** [Benefit.findOne(query)]. *)
Definition findOne (query : string * Benefit -> Prop)
    `{!forall kb, Decision (query kb)} (db : Collection) : option (string * Benefit) :=
  head (find query db).

(** [Benefit.findById(id)]. *)
Definition findById (id : string) (db : Collection) : option Benefit := db !! id.

(** [benefit.save()]. *)
Definition save (id : string) (benefit : Benefit) (db : Collection) : Collection :=
  <[id := benefit]> db.

(** ** The Mongoose-backed routes (router.post('/calculate'), ...) *)

Module Routes.

(** Assigning [{ ...benefit.valeRefeicao, ...body }] to the nested path
    copies its inner nested path [scheduleFile] along (for valeTransporte,
    [newAddress]) in a form Mongoose cannot cast back, so that the document
    no longer validates; [mobilidade] has no inner nested path. *)
Definition spreadInvalidates (valeRefeicao' : option VRBody)
    (valeTransporte' : option VTBody) : bool :=
  match valeRefeicao', valeTransporte' with
  | None, None => false
  | _, _ => true
  end.

(** POST /calculate. [newId] is the [_id] the driver gives a new
    document.  When [save()] rejects the document the [catch] answers 500
    and the collection keeps what it had. *)
Definition calculate (employeeId' month' year' : string)
    (valeRefeicao' : option VRBody) (valeTransporte' : option VTBody)
    (mobilidade' : option MobBody) (uid newId : string) (db : Collection)
    : Collection * Response BenefitBody :=
  let m := monthStr year' month' in
  let '(id, benefit) :=
    match findOne (fun kb => employeeId kb.2 = employeeId' /\ month kb.2 = m) db with
    | Some kb => kb
    | None => (newId, newBenefit employeeId' m uid)
    end in
  let benefit := applyBody valeRefeicao' valeTransporte' mobilidade' benefit in
  let benefit := snd (Model.calculateVR benefit) in
  let benefit := snd (Model.calculateVT benefit) in
  let benefit := set_paymentStatus Calculated benefit in
  let benefit := set_updatedBy uid benefit in
  if spreadInvalidates valeRefeicao' valeTransporte'
  then (db, ServerError "Failed to calculate benefit")
  else (save id benefit db,
        Ok (mkBenefitBody "Benefit calculated successfully" benefit)).

(** The deduction sub-schema: [date], [amount] and [reason] are required,
    and a required String must not be empty.  A [Deduction] always has a
    date and an amount, and its [type] is one of the enum's. *)
Definition validDeduction (d : Deduction) : bool :=
  negb (String.eqb (reason d) "").

(** The sub-document [addDeduction] pushes, if it pushes one. *)
Definition pushed (benefitType : string) (deductionData : Deduction)
    : option Deduction :=
  if String.eqb benefitType "VR" then Some deductionData
  else if String.eqb benefitType "VT" then Some deductionData
  else None.

(** POST /deduction. [type'] is [None] when the body's [type] is falsy,
    [reason'] is empty when the body has no reason; [date'] and [amount']
    are what [new Date] and [parseFloat] read, a date and a number.
    [save()] validates the pushed sub-document; when it fails the [catch]
    answers 500 and the collection keeps what it had. *)
Definition deduction (benefitId benefitType : string) (date' amount' : Z)
    (reason' : string) (type' : option DeductionType) (uid : string) (now : Z)
    (db : Collection) : Collection * Response BenefitBody :=
  match findById benefitId db with
  | None => (db, NotFound "Benefit not found")
  | Some benefit =>
      let deductionData :=
        mkDeduction date' amount' reason' (default Absence type') uid now in
      let benefit := Model.addDeduction benefitType deductionData benefit in
      let benefit := set_updatedBy uid benefit in
      match pushed benefitType deductionData with
      | Some d =>
          if validDeduction d
          then (save benefitId benefit db,
                Ok (mkBenefitBody "Deduction added successfully" benefit))
          else (db, ServerError "Failed to add deduction")
      | None =>
          (save benefitId benefit db,
           Ok (mkBenefitBody "Deduction added successfully" benefit))
      end
  end.

(** The body of the approve loop. *)
Definition approveOne (uid : string) (benefit : Benefit) : Benefit :=
  set_updatedBy uid (set_paymentStatus Approved benefit).

(** POST /approve. *)
Definition approve (benefitIds : list string) (uid : string) (db : Collection)
    : Collection * Response string :=
  let benefits := find (fun kb => kb.1 ∈ benefitIds) db in
  let db := foldl (fun db kb => save kb.1 (approveOne uid kb.2) db) db benefits in
  (db, Ok (pretty (length benefits) +:+ " benefits approved for payment")).

Definition employeeDatum (benefit : Benefit) : EmployeeDatum :=
  mkEmployeeDatum (employeeId benefit)
                  (Model.totalBenefitAmount benefit)
                  (vr_finalAmount (valeRefeicao benefit))
                  (vt_finalAmount (valeTransporte benefit))
                  (mob_monthlyValue (mobilidade benefit)).

(** The loop of POST /send-to-flash: the [i]-th [new Date()] of the
    request reads [clock i]. *)
Fixpoint sendLoop (uid : string) (clock : nat -> Z) (i : nat)
    (benefits : list (string * Benefit))
    (st : Collection * Z * list EmployeeDatum)
    : Collection * Z * list EmployeeDatum :=
  match benefits with
  | [] => st
  | (id, benefit) :: rest =>
      let '(db, totalAmount, employeeData) := st in
      let benefit := Model.sendToFlash uid (clock i) benefit in
      let totalAmount := totalAmount + Model.totalBenefitAmount benefit in
      let employeeData := employeeData ++ [employeeDatum benefit] in
      sendLoop uid clock (S i) rest (save id benefit db, totalAmount, employeeData)
  end.

(** The documents POST /send-to-flash selects. *)
Definition sendable (benefitIds : list string) (kb : string * Benefit) : Prop :=
  kb.1 ∈ benefitIds /\ paymentStatus kb.2 = Approved
  /\ sent (flashPayment kb.2) = false.

#[global] Instance sendable_dec benefitIds kb : Decision (sendable benefitIds kb).
Proof. unfold sendable. apply _. Defined.

(** POST /send-to-flash. *)
Definition sendToFlash (benefitIds : list string) (uid : string)
    (clock : nat -> Z) (db : Collection) : Collection * Response FlashBody :=
  let benefits := find (sendable benefitIds) db in
  let '(db, totalAmount, employeeData) :=
    sendLoop uid clock 0 benefits (db, 0, []) in
  let flashResponse :=
    mkFlashResponse true ("FLASH-" +:+ pretty (clock (length benefits)))
                    totalAmount (length benefits) FlashProcessing in
  (db,
   Ok (mkFlashBody (pretty (length benefits) +:+ " benefits sent to Flash")
                   flashResponse totalAmount employeeData)).

(** What a field path of the aggregation pipeline reads in a stored
    document: the schema's Number paths.  A virtual is not stored. *)
Definition storedNumber (path : string) (doc : Benefit) : option Z :=
  if String.eqb path "valeRefeicao.dailyValue" then Some (vr_dailyValue (valeRefeicao doc))
  else if String.eqb path "valeRefeicao.businessDays" then Some (vr_businessDays (valeRefeicao doc))
  else if String.eqb path "valeRefeicao.saturdays" then Some (vr_saturdays (valeRefeicao doc))
  else if String.eqb path "valeRefeicao.totalDays" then Some (vr_totalDays (valeRefeicao doc))
  else if String.eqb path "valeRefeicao.totalAmount" then Some (vr_totalAmount (valeRefeicao doc))
  else if String.eqb path "valeRefeicao.finalAmount" then Some (vr_finalAmount (valeRefeicao doc))
  else if String.eqb path "valeTransporte.fixedAmount" then Some (vt_fixedAmount (valeTransporte doc))
  else if String.eqb path "valeTransporte.dailyValue" then Some (vt_dailyValue (valeTransporte doc))
  else if String.eqb path "valeTransporte.totalDays" then Some (vt_totalDays (valeTransporte doc))
  else if String.eqb path "valeTransporte.totalAmount" then Some (vt_totalAmount (valeTransporte doc))
  else if String.eqb path "valeTransporte.finalAmount" then Some (vt_finalAmount (valeTransporte doc))
  else if String.eqb path "mobilidade.monthlyValue" then Some (mob_monthlyValue (mobilidade doc))
  else None.

(** [{ $sum: '$path' }]: a missing field adds nothing. *)
Definition sumPath (path : string) (docs : list Benefit) : Z :=
  foldl (fun acc doc => acc + default 0 (storedNumber path doc)) 0 docs.

(** [{ $sum: { $cond: [{ $eq: ['$paymentStatus', s] }, 1, 0] } }] *)
Definition sumStatus (s : PaymentStatus) (docs : list Benefit) : Z :=
  foldl (fun acc doc => acc + (if decide (paymentStatus doc = s) then 1 else 0)) 0 docs.

(** [Benefit.aggregate([{ $match }, { $group: { _id: null, ... } }])]:
    one group when a document matches, none otherwise. *)
Definition aggregate (m : string) (db : Collection) : list Statistics :=
  let docs := (find (fun kb => month kb.2 = m) db).*2 in
  match docs with
  | [] => []
  | _ =>
      [mkStatistics (sumPath "valeRefeicao.finalAmount" docs)
                    (sumPath "valeTransporte.finalAmount" docs)
                    (sumPath "mobilidade.monthlyValue" docs)
                    (sumPath "totalBenefitAmount" docs)
                    (foldl (fun acc _ => acc + 1) 0 docs)
                    (sumStatus Pending docs)
                    (sumStatus Calculated docs)
                    (sumStatus Approved docs)
                    (sumStatus Paid docs)]
  end.

(** GET /statistics/:month/:year. *)
Definition statistics (month' year' : string) (db : Collection)
    : Collection * Response Statistics :=
  let stats := aggregate (monthStr year' month') db in
  (db, Ok (default (mkStatistics 0 0 0 0 0 0 0 0 0) (head stats))).

End Routes.

(** ** The demo server's routes (app.post('/api/benefits/calculate'), ...) *)

(** [demoBenefits]: the objects in array order, each with its [_id]. *)
Abbreviation DemoStore := (list (string * Benefit)).

Module Demo.

(** [x || 0] on a number. *)
Definition orZero (x : Z) : Z := if decide (x = 0) then 0 else x.

(** "Calculate amounts" of POST /api/benefits/calculate. *)
Definition calculateAmounts (benefit : Benefit) : Benefit :=
  let benefit :=
    let vr := valeRefeicao benefit in
    if vr_enabled vr then
      let totalDays := vr_businessDays vr + vr_saturdays vr in
      let totalAmount := totalDays * vr_dailyValue vr in
      let totalVRDeductions := sumDeductions (vr_deductions vr) in
      set_valeRefeicao
        (mkVR (vr_enabled vr) (vr_dailyValue vr) (vr_businessDays vr)
              (vr_saturdays vr) totalDays totalAmount (vr_deductions vr)
              (Z.max 0 (totalAmount - totalVRDeductions))) benefit
    else benefit in
  let vt := valeTransporte benefit in
  if vt_enabled vt then
    let totalAmount := vt_fixedAmount vt in
    let totalVTDeductions := sumDeductions (vt_deductions vt) in
    set_valeTransporte
      (mkVT (vt_enabled vt) (vt_fixedAmount vt) (vt_dailyValue vt)
            (vt_totalDays vt) totalAmount (vt_deductions vt)
            (Z.max 0 (totalAmount - totalVTDeductions))) benefit
  else benefit.

(** POST /api/benefits/calculate on a stored object.  When no object
    matches, the handler pushes a bare object without [flashPayment] and
    sub-documents other than the body's; that object is not a [Benefit]
    and the result is [None]. *)
Definition calculate (employeeId' month' year' : string)
    (valeRefeicao' : option VRBody) (valeTransporte' : option VTBody)
    (mobilidade' : option MobBody) (uid : string) (store : DemoStore)
    : option (DemoStore * Response BenefitBody) :=
  let m := monthStr year' month' in
  match list_find (fun kb => employeeId kb.2 = employeeId' /\ month kb.2 = m) store with
  | Some (i, (id, benefit)) =>
      let benefit := applyBody valeRefeicao' valeTransporte' mobilidade' benefit in
      let benefit := calculateAmounts benefit in
      let benefit := set_paymentStatus Calculated benefit in
      let benefit := set_updatedBy uid benefit in
      Some (<[i := (id, benefit)]> store,
            Ok (mkBenefitBody "Benefit calculated successfully" benefit))
  | None => None
  end.

(** The type dispatch of POST /api/benefits/deduction. *)
Definition addDeduction (benefitType : string) (deductionData : Deduction)
    (benefit : Benefit) : Benefit :=
  if String.eqb benefitType "VR" then
    let vr := valeRefeicao benefit in
    let deductions := vr_deductions vr ++ [deductionData] in
    let totalDeductions := sumDeductions deductions in
    set_valeRefeicao
      (mkVR (vr_enabled vr) (vr_dailyValue vr) (vr_businessDays vr)
            (vr_saturdays vr) (vr_totalDays vr) (vr_totalAmount vr) deductions
            (Z.max 0 (vr_totalAmount vr - totalDeductions))) benefit
  else if String.eqb benefitType "VT" then
    let vt := valeTransporte benefit in
    let deductions := vt_deductions vt ++ [deductionData] in
    let totalDeductions := sumDeductions deductions in
    set_valeTransporte
      (mkVT (vt_enabled vt) (vt_fixedAmount vt) (vt_dailyValue vt)
            (vt_totalDays vt) (vt_totalAmount vt) deductions
            (Z.max 0 (vt_totalAmount vt - totalDeductions))) benefit
  else benefit.

(** POST /api/benefits/deduction. *)
Definition deduction (benefitId benefitType : string) (date' amount' : Z)
    (reason' : string) (type' : option DeductionType) (uid : string) (now : Z)
    (store : DemoStore) : DemoStore * Response BenefitBody :=
  match list_find (fun kb => kb.1 = benefitId) store with
  | None => (store, NotFound "Benefit not found")
  | Some (i, (id, benefit)) =>
      let deductionData :=
        mkDeduction date' amount' reason' (default Absence type') uid now in
      let benefit := addDeduction benefitType deductionData benefit in
      let benefit := set_updatedBy uid benefit in
      (<[i := (id, benefit)]> store,
       Ok (mkBenefitBody "Deduction added successfully" benefit))
  end.

(** One turn of the loop of POST /api/benefits/approve. *)
Definition approveStep (uid : string) (st : DemoStore * nat) (benefitId : string)
    : DemoStore * nat :=
  let '(store, approvedCount) := st in
  match list_find (fun kb => kb.1 = benefitId) store with
  | Some (i, (id, benefit)) =>
      let benefit := set_updatedBy uid (set_paymentStatus Approved benefit) in
      (<[i := (id, benefit)]> store, S approvedCount)
  | None => (store, approvedCount)
  end.

(** POST /api/benefits/approve. *)
Definition approve (benefitIds : list string) (uid : string) (store : DemoStore)
    : DemoStore * Response string :=
  let '(store, approvedCount) := foldl (approveStep uid) (store, 0%nat) benefitIds in
  (store, Ok (pretty approvedCount +:+ " benefits approved for payment")).

Definition benefitAmount (benefit : Benefit) : Z :=
  orZero (vr_finalAmount (valeRefeicao benefit))
  + orZero (vt_finalAmount (valeTransporte benefit))
  + orZero (mob_monthlyValue (mobilidade benefit)).

(** The state of the loop of POST /api/benefits/send-to-flash; [sl_tick]
    counts the clock reads made so far. *)
Record SendLoop := mkSendLoop {
  sl_store : DemoStore;
  sl_totalAmount : Z;
  sl_sentCount : nat;
  sl_employeeData : list EmployeeDatum;
  sl_tick : nat
}.

Definition sendStep (uid : string) (clock : nat -> Z) (st : SendLoop)
    (benefitId : string) : SendLoop :=
  match list_find (fun kb => kb.1 = benefitId) (sl_store st) with
  | Some (i, (id, benefit)) =>
      if decide (paymentStatus benefit = Approved /\ sent (flashPayment benefit) = false)
      then
        let t := sl_tick st in
        let reference :=
          "FLASH-" +:+ pretty (clock (S t)) +:+ "-" +:+ pretty (S (sl_sentCount st)) in
        let benefit' :=
          set_flashPayment
            (mkFlash true (Some (clock t)) (Some uid) (Some reference) FlashProcessing)
            benefit in
        let amount := benefitAmount benefit' in
        mkSendLoop (<[i := (id, benefit')]> (sl_store st))
                   (sl_totalAmount st + amount)
                   (S (sl_sentCount st))
                   (sl_employeeData st ++
                      [mkEmployeeDatum (employeeId benefit') amount
                         (orZero (vr_finalAmount (valeRefeicao benefit')))
                         (orZero (vt_finalAmount (valeTransporte benefit')))
                         (orZero (mob_monthlyValue (mobilidade benefit')))])
                   (t + 3)
      else st
  | None => st
  end.

(** POST /api/benefits/send-to-flash. *)
Definition sendToFlash (benefitIds : list string) (uid : string)
    (clock : nat -> Z) (store : DemoStore) : DemoStore * Response FlashBody :=
  let st := foldl (sendStep uid clock) (mkSendLoop store 0 0 [] 0) benefitIds in
  let flashResponse :=
    mkFlashResponse true ("FLASH-" +:+ pretty (clock (sl_tick st)))
                    (sl_totalAmount st) (sl_sentCount st) FlashProcessing in
  (sl_store st,
   Ok (mkFlashBody (pretty (sl_sentCount st) +:+ " benefits sent to Flash")
                   flashResponse (sl_totalAmount st) (sl_employeeData st))).

(** [monthBenefits.reduce((sum, b) => sum + f(b), 0)] *)
Definition reduceSum (f : Benefit -> Z) (bs : list Benefit) : Z :=
  foldl (fun sum b => sum + f b) 0 bs.

(** The reducer of [totalAmount]: [sum + (vr || 0) + (vt || 0) + (mob || 0)]. *)
Definition reduceTotal (bs : list Benefit) : Z :=
  foldl (fun sum b => sum + orZero (vr_finalAmount (valeRefeicao b))
                          + orZero (vt_finalAmount (valeTransporte b))
                          + orZero (mob_monthlyValue (mobilidade b))) 0 bs.

(** [monthBenefits.filter(b => b.paymentStatus === s).length] *)
Definition countStatus (s : PaymentStatus) (bs : list Benefit) : Z :=
  Z.of_nat (length (filter (fun b => paymentStatus b = s) bs)).

(** GET /api/benefits/statistics/:month/:year. *)
Definition statistics (month' year' : string) (store : DemoStore)
    : DemoStore * Response Statistics :=
  let m := monthStr year' month' in
  let monthBenefits := (filter (fun kb : string * Benefit => month kb.2 = m) store).*2 in
  (store,
   Ok (mkStatistics
         (reduceSum (fun b => orZero (vr_finalAmount (valeRefeicao b))) monthBenefits)
         (reduceSum (fun b => orZero (vt_finalAmount (valeTransporte b))) monthBenefits)
         (reduceSum (fun b => orZero (mob_monthlyValue (mobilidade b))) monthBenefits)
         (reduceTotal monthBenefits)
         (Z.of_nat (length monthBenefits))
         (countStatus Pending monthBenefits)
         (countStatus Calculated monthBenefits)
         (countStatus Approved monthBenefits)
         (countStatus Paid monthBenefits))).

End Demo.

(** ** Sequences of requests against the collection *)

Inductive Request :=
| ReqCalculate (employeeId' month' year' : string) (vr : option VRBody)
    (vt : option VTBody) (mob : option MobBody) (uid newId : string)
| ReqDeduction (benefitId benefitType : string) (date' amount' : Z)
    (reason' : string) (type' : option DeductionType) (uid : string) (now : Z)
| ReqApprove (benefitIds : list string) (uid : string)
| ReqSendToFlash (benefitIds : list string) (uid : string) (clock : nat -> Z).

Definition handle (r : Request) (db : Collection) : Collection :=
  match r with
  | ReqCalculate e m y vr vt mob uid newId =>
      (Routes.calculate e m y vr vt mob uid newId db).1
  | ReqDeduction id bt d a rs ty uid now =>
      (Routes.deduction id bt d a rs ty uid now db).1
  | ReqApprove ids uid => (Routes.approve ids uid db).1
  | ReqSendToFlash ids uid clock => (Routes.sendToFlash ids uid clock db).1
  end.






(** Sums as the specification writes them. *)
Definition sumOver {A} (f : A -> Z) (l : list A) : Z :=
  foldr (fun x acc => f x + acc) 0 l.

Definition countWhere {A} (P : A -> Prop) `{!forall x, Decision (P x)} (l : list A) : Z :=
  Z.of_nat (length (filter P l)).

Definition inStatus (s : PaymentStatus) (b : Benefit) : Prop := paymentStatus b = s.

#[global] Instance inStatus_dec s b : Decision (inStatus s b).
Proof. unfold inStatus. apply _. Defined.

(** ** Concrete documents and requests used in the examples *)

Module Fixtures.

(** A document as [new Benefit] makes it. *)
Definition fresh : Benefit := newBenefit "emp-1" "2024-01" "hr-1".

Definition withVR (vr : ValeRefeicao) : Benefit := set_valeRefeicao vr fresh.

Definition withVT (vt : ValeTransporte) : Benefit := set_valeTransporte vt fresh.

Definition deductionOf (a : Z) (r : string) : Deduction :=
  mkDeduction 1705276800000 a r Absence "hr-1" 1705300000000.

(** VR calculated for 22 days at 25: totalAmount = finalAmount = 550. *)
Definition vr550 : Benefit :=
  set_paymentStatus Calculated (withVR (mkVR true 25 22 0 22 550 [] 550)).

(** A document as GET /employee/:employeeId/:month/:year creates it for an
    employee with a fixed transport amount of 300: nothing calculated yet. *)
Definition created300 : Benefit := withVT (mkVT true 300 0 22 0 [] 0).

Definition db_vr550 : Collection := {[ "b1" := vr550 ]}.

Definition db_created300 : Collection := {[ "b1" := created300 ]}.

(** A paid document and a pending one, next to the calculated b1. *)
Definition paid550 : Benefit := set_paymentStatus Paid vr550.

Definition db_workflow : Collection :=
  {[ "b1" := vr550; "b2" := paid550; "b3" := created300 ]}.

(** Two approved, unsent documents worth 450 and 250, and the calculated
    b1 under the id a3. *)
Definition approved450 : Benefit :=
  set_paymentStatus Approved
    (withVR (mkVR true 25 22 0 22 550 [deductionOf 100 "Absence"] 450)).

Definition approved250 : Benefit :=
  set_paymentStatus Approved
    (set_valeRefeicao (mkVR false 0 22 0 22 0 [] 0)
       (withVT (mkVT true 300 0 22 300 [deductionOf 50 "Absence"] 250))).

Definition db_approved : Collection :=
  {[ "a1" := approved450; "a2" := approved250; "a3" := vr550 ]}.

Definition demo_approved : DemoStore :=
  [("a1", approved450); ("a2", approved250); ("a3", vr550)].

Definition clock0 (n : nat) : Z := 1706000000000 + Z.of_nat n.

Definition db_one_approved : Collection := {[ "a1" := approved450 ]}.






(** A cancelled document next to the calculated b1, both worth 550. *)
Definition cancelled550 : Benefit := set_paymentStatus Cancelled vr550.

Definition db_cancelled : Collection := {[ "b1" := vr550; "c1" := cancelled550 ]}.

Definition demo_cancelled : DemoStore := [("b1", vr550); ("c1", cancelled550)].

Definition demo_workflow : DemoStore :=
  [("b1", vr550); ("b2", paid550); ("b3", created300)].




End Fixtures.

(** ** The employee model's benefit methods (employeeSchema.methods) *)

Inductive EmploymentType := CLT | PJ | Intern | Temporary.

#[global] Instance EmploymentType_eq_dec : EqDecision EmploymentType.
Proof. solve_decision. Defined.

Record ScheduleUpload := mkScheduleUpload {
  su_month : string;        (* YYYY-MM *)
  su_businessDays : Z;
  su_saturdays : Z
}.

Record EmployeeVT := mkEmployeeVT {
  evt_enabled : bool;
  evt_dailyValue : Z;
  evt_monthlyDays : Z;
  evt_fixedAmount : Z
}.

Record EmployeeVR := mkEmployeeVR {
  evr_enabled : bool;
  evr_dailyValue : Z;
  evr_monthlyDays : Z;
  evr_includeSaturdays : bool;
  evr_scheduleUploads : list ScheduleUpload
}.

Record EmployeeBenefits := mkEmployeeBenefits {
  eb_valeTransporte : EmployeeVT;
  eb_valeRefeicao : EmployeeVR;
  eb_mobilidade : Mobilidade;
  eb_healthInsurance : bool;      (* healthInsurance.enabled *)
  eb_dentalInsurance : bool       (* dentalInsurance.enabled *)
}.

Record Employee := mkEmployee {
  emp_employmentType : EmploymentType;
  emp_benefits : EmployeeBenefits
}.

Module EmployeeModel.

(** [calculateVR(month, year)]. *)
Definition calculateVR (month' year' : string) (this : Employee) : Z :=
  let vr := eb_valeRefeicao (emp_benefits this) in
  if negb (evr_enabled vr) then 0
  else
    match list_find (fun s => su_month s = monthStr year' month')
                    (evr_scheduleUploads vr) with
    | None => 0
    | Some (_, schedule) =>
        let totalDays :=
          su_businessDays schedule
          + (if evr_includeSaturdays vr then su_saturdays schedule else 0) in
        totalDays * evr_dailyValue vr
    end.

(** [calculateVT(month, year)]. *)
Definition calculateVT (this : Employee) : Z :=
  let vt := eb_valeTransporte (emp_benefits this) in
  if negb (evt_enabled vt) then 0
  else if decide (emp_employmentType this = CLT) then evt_fixedAmount vt
  else evt_monthlyDays vt * evt_dailyValue vt.

End EmployeeModel.

(** ** Static queries of the benefit model (benefitSchema.statics) *)

Module Statics.

(** The filter shared by [findPendingPayments] and [getTotalForFlash]. *)
Definition pending (kb : string * Benefit) : Prop :=
  paymentStatus kb.2 = Approved /\ sent (flashPayment kb.2) = false.

#[global] Instance pending_dec kb : Decision (pending kb).
Proof. unfold pending. apply _. Defined.

(** [findPendingPayments()]. *)
Definition findPendingPayments (db : Collection) : list (string * Benefit) :=
  find pending db.

(** The group [getTotalForFlash] computes: [totalAmount], [employeeCount]. *)
Record FlashTotal := mkFlashTotal {
  ft_totalAmount : Z;
  ft_employeeCount : Z
}.

(** [getTotalForFlash(month, year)]: one group when a document matches,
    none otherwise. *)
Definition getTotalForFlash (month' year' : string) (db : Collection)
    : list FlashTotal :=
  let docs :=
    (find (fun kb => month kb.2 = monthStr year' month' /\ pending kb) db).*2 in
  match docs with
  | [] => []
  | _ => [mkFlashTotal (Routes.sumPath "totalBenefitAmount" docs)
                       (foldl (fun acc _ => acc + 1) 0 docs)]
  end.

End Statics.

(** ** The remaining Mongoose-backed benefit routes *)

Abbreviation Employees := (gmap string Employee).

Record FlashStatusBody := mkFlashStatusBody {
  fs_reference : string;
  fs_totalAmount : Z;
  fs_employeeCount : nat;
  fs_benefits : list (string * Benefit);
  fs_status : FlashStatus
}.

(** The [employeeId] of a benefit document in an answer: the reference
    itself, or what [populate] put in its place. *)
Inductive EmployeeRef :=
| Reference (id : string)
| Populated (employee : option EmployeeBenefits).

(** The answers of POST /upload-schedule: 400 when no file came with the
    request, otherwise as the other routes. *)
Inductive UploadResponse :=
| BadRequest (error : string)
| Answered (r : Response BenefitBody).

Module BenefitRoutes.

(** The document GET /employee/:employeeId/:month/:year creates from the
    employee's configuration; what the constructor is not given takes the
    schema's default. *)
Definition benefitFor (employeeId' m : string) (employee : Employee)
    (uid : string) : Benefit :=
  let benefits := emp_benefits employee in
  mkBenefit employeeId' m
            (mkVR (evr_enabled (eb_valeRefeicao benefits))
                  (evr_dailyValue (eb_valeRefeicao benefits))
                  (evr_monthlyDays (eb_valeRefeicao benefits))
                  0 22 0 [] 0)
            (mkVT (evt_enabled (eb_valeTransporte benefits))
                  (evt_fixedAmount (eb_valeTransporte benefits))
                  (evt_dailyValue (eb_valeTransporte benefits))
                  22 0 [] 0)
            (mkMob (mob_enabled (eb_mobilidade benefits))
                   (mob_monthlyValue (eb_mobilidade benefits)))
            Pending
            (mkFlash false None None None FlashPending)
            uid None.

(** [.populate('employeeId', 'firstName lastName employeeId department
    position benefits')]: the reference is replaced by the selected fields
    of the employee it names (of the modelled ones, [benefits]), or by null
    when no employee has that id. *)
Definition populate (employees : Employees) (benefit : Benefit) : EmployeeRef :=
  Populated (emp_benefits <$> employees !! employeeId benefit).

(** GET /employee/:employeeId/:month/:year.  [newId] is the [_id] the
    driver gives a new document.  A document that is found is answered
    populated, a document that is created is answered as it was built. *)
Definition employeeBenefit (employeeId' month' year' uid newId : string)
    (employees : Employees) (db : Collection)
    : Collection * Response (Benefit * EmployeeRef) :=
  let m := monthStr year' month' in
  match findOne (fun kb => employeeId kb.2 = employeeId' /\ month kb.2 = m) db with
  | Some (_, benefit) => (db, Ok (benefit, populate employees benefit))
  | None =>
      match employees !! employeeId' with
      | None => (db, NotFound "Employee not found")
      | Some employee =>
          let benefit := benefitFor employeeId' m employee uid in
          (save newId benefit db, Ok (benefit, Reference employeeId'))
      end
  end.

(** [parseInt(x) || fallback], with [None] for NaN. *)
Definition parsedOr (fallback : Z) (parsed : option Z) : Z :=
  match parsed with
  | Some n => if decide (n = 0) then fallback else n
  | None => fallback
  end.

(** POST /upload-schedule.  [file] tells whether a file was uploaded;
    [businessDays'] and [saturdays'] are what [parseInt] reads in the
    body's fields. *)
Definition uploadSchedule (employeeId' month' year' : string)
    (businessDays' saturdays' : option Z) (file : bool) (uid : string)
    (db : Collection) : Collection * UploadResponse :=
  if negb file then (db, BadRequest "No file uploaded")
  else
    let m := monthStr year' month' in
    match findOne (fun kb => employeeId kb.2 = employeeId' /\ month kb.2 = m) db with
    | None =>
        (db, Answered (NotFound "Benefit record not found. Please calculate benefits first."))
    | Some (id, benefit) =>
        let vr := valeRefeicao benefit in
        let benefit :=
          set_valeRefeicao
            (mkVR (vr_enabled vr) (vr_dailyValue vr) (parsedOr 22 businessDays')
                  (parsedOr 0 saturdays') (vr_totalDays vr) (vr_totalAmount vr)
                  (vr_deductions vr) (vr_finalAmount vr)) benefit in
        let benefit := snd (Model.calculateVR benefit) in
        let benefit := set_updatedBy uid benefit in
        (save id benefit db,
         Answered (Ok (mkBenefitBody "Schedule uploaded successfully" benefit)))
    end.

(** GET /flash-status/:reference. *)
Definition flashStatus' (reference : string) (db : Collection)
    : Response FlashStatusBody :=
  let benefits :=
    find (fun kb => flashReference (flashPayment kb.2) = Some reference) db in
  match benefits with
  | [] => NotFound "Flash reference not found"
  | first :: _ =>
      let totalAmount :=
        foldl (fun sum kb => sum + Model.totalBenefitAmount kb.2) 0 benefits in
      Ok (mkFlashStatusBody reference totalAmount (length benefits) benefits
                            (flashStatus (flashPayment first.2)))
  end.

End BenefitRoutes.

(** Every Mongoose-backed benefit request that writes, over a fixed
    employee collection. *)
Inductive AnyRequest :=
| Core (r : Request)
| ReqEmployeeBenefit (employeeId' month' year' uid newId : string)
| ReqUploadSchedule (employeeId' month' year' : string)
    (businessDays' saturdays' : option Z) (file : bool) (uid : string).

Definition handleAny (employees : Employees) (r : AnyRequest) (db : Collection)
    : Collection :=
  match r with
  | Core r => handle r db
  | ReqEmployeeBenefit e m y uid newId =>
      (BenefitRoutes.employeeBenefit e m y uid newId employees db).1
  | ReqUploadSchedule e m y bd sa file uid =>
      (BenefitRoutes.uploadSchedule e m y bd sa file uid db).1
  end.

Definition runAny (employees : Employees) (rs : list AnyRequest) (db : Collection)
    : Collection :=
  foldl (fun db r => handleAny employees r db) db rs.

(** ** The demo server's remaining benefit routes *)

(** An employee object of [demoEmployees], as far as the benefit routes
    read it; a field that may be missing is an [option]. *)
Record DemoVRConfig := mkDemoVRConfig {
  dvr_enabled : option bool;
  dvr_dailyValue : option Z;
  dvr_monthlyDays : option Z
}.

Record DemoVTConfig := mkDemoVTConfig {
  dvt_enabled : option bool;
  dvt_fixedAmount : option Z;
  dvt_dailyValue : option Z
}.

Record DemoMobConfig := mkDemoMobConfig {
  dmob_enabled : option bool;
  dmob_monthlyValue : option Z
}.

Record DemoBenefitsConfig := mkDemoBenefitsConfig {
  dcfg_valeRefeicao : option DemoVRConfig;
  dcfg_valeTransporte : option DemoVTConfig;
  dcfg_mobilidade : option DemoMobConfig
}.

Record DemoEmployeeData := mkDemoEmployeeData {
  ded_firstName : option string;
  ded_lastName : option string;
  ded_employeeId : option string;
  ded_department : option string;
  ded_position : option string
}.

Record DemoEmployee := mkDemoEmployee {
  de_id : string;                      (* _id *)
  de_data : DemoEmployeeData;
  de_benefits : option DemoBenefitsConfig
}.

Record DemoPage := mkDemoPage {
  dp_benefits : list (string * Benefit * option DemoEmployeeData);
  dp_totalPages : option Z;            (* None: not a finite number *)
  dp_currentPage : Z;
  dp_total : nat
}.

(** The string a payment status is stored as. *)
Definition statusName (s : PaymentStatus) : string :=
  match s with
  | Pending => "Pending"
  | Calculated => "Calculated"
  | Approved => "Approved"
  | Paid => "Paid"
  | Cancelled => "Cancelled"
  end.

(** [Array.prototype.slice(start, end)] on integers. *)
Definition jsSlice {A} (start end' : Z) (l : list A) : list A :=
  let len := Z.of_nat (length l) in
  let k := if decide (start < 0) then Z.max (len + start) 0 else Z.min start len in
  let final := if decide (end' < 0) then Z.max (len + end') 0 else Z.min end' len in
  take (Z.to_nat (final - k)) (drop (Z.to_nat k) l).

(** [Math.ceil(a / b)]; [None] when the quotient is not finite ([b] = 0). *)
Definition ceilDiv (a b : Z) : option Z :=
  if decide (b = 0) then None else Some (- ((- a) / b)).

Module DemoRoutes.

(** [x || d] on an optional boolean and on an optional number. *)
Definition orBool (x : option bool) (d : bool) : bool :=
  match x with Some true => true | _ => d end.

Definition orNum (x : option Z) (d : Z) : Z :=
  match x with
  | Some n => if decide (n = 0) then d else n
  | None => d
  end.

Definition employeeData (employees : list DemoEmployee) (employeeId' : string)
    : option DemoEmployeeData :=
  de_data <$> (snd <$> list_find (fun emp => de_id emp = employeeId') employees).

(** GET /api/benefits/month/:month/:year; [status] is [None] when the
    query has no (or an empty) status, [page] and [limit] are the numbers
    the query's values stand for. *)
Definition benefitsOfMonth (month' year' : string) (page limit : Z)
    (status : option string) (employees : list DemoEmployee) (store : DemoStore)
    : DemoPage :=
  let filteredBenefits :=
    filter (fun kb : string * Benefit => month kb.2 = monthStr year' month') store in
  let filteredBenefits :=
    match status with
    | Some s => filter (fun kb : string * Benefit => statusName (paymentStatus kb.2) = s)
                       filteredBenefits
    | None => filteredBenefits
    end in
  let benefitsWithEmployeeData :=
    (fun kb : string * Benefit => (kb, employeeData employees (employeeId kb.2)))
      <$> filteredBenefits in
  let startIndex := (page - 1) * limit in
  let endIndex := startIndex + limit in
  mkDemoPage (jsSlice startIndex endIndex benefitsWithEmployeeData)
             (ceilDiv (Z.of_nat (length benefitsWithEmployeeData)) limit)
             page
             (length benefitsWithEmployeeData).

(** The object GET /api/benefits/employee/... creates. *)
Definition benefitFor (employeeId' m : string) (employee : DemoEmployee)
    (uid : string) : Benefit :=
  let vr := de_benefits employee ≫= dcfg_valeRefeicao in
  let vt := de_benefits employee ≫= dcfg_valeTransporte in
  let mob := de_benefits employee ≫= dcfg_mobilidade in
  mkBenefit employeeId' m
            (mkVR (orBool (vr ≫= dvr_enabled) true)
                  (orNum (vr ≫= dvr_dailyValue) 25)
                  (orNum (vr ≫= dvr_monthlyDays) 22)
                  0 22 0 [] 0)
            (mkVT (orBool (vt ≫= dvt_enabled) true)
                  (orNum (vt ≫= dvt_fixedAmount) 300)
                  (orNum (vt ≫= dvt_dailyValue) 0)
                  22 0 [] 0)
            (mkMob (orBool (mob ≫= dmob_enabled) false)
                   (orNum (mob ≫= dmob_monthlyValue) 0))
            Pending
            (mkFlash false None None None FlashPending)
            uid None.

(** GET /api/benefits/employee/:employeeId/:month/:year; the answer is the
    benefit with the employee's data (and benefit configuration), if any. *)
Definition employeeBenefit (employeeId' month' year' uid : string) (now : Z)
    (employees : list DemoEmployee) (store : DemoStore)
    : DemoStore * Response (Benefit * option (DemoEmployeeData * option DemoBenefitsConfig)) :=
  let m := monthStr year' month' in
  let employee := snd <$> list_find (fun emp => de_id emp = employeeId') employees in
  let data := (fun emp => (de_data emp, de_benefits emp)) <$> employee in
  match list_find (fun kb => employeeId kb.2 = employeeId' /\ month kb.2 = m) store with
  | Some (_, (_, benefit)) => (store, Ok (benefit, data))
  | None =>
      match employee with
      | None => (store, NotFound "Employee not found")
      | Some emp =>
          let benefit := benefitFor employeeId' m emp uid in
          (store ++ [("benefit-" +:+ pretty now, benefit)], Ok (benefit, data))
      end
  end.

End DemoRoutes.

(** ** Predicates used in the statements about the demo server's loops *)

(** What the demo server's send loop requires of an object. *)
Definition sendableB (b : Benefit) : Prop :=
  paymentStatus b = Approved /\ sent (flashPayment b) = false.

(** The first object carrying [id], if any, cannot be sent (any more). *)
Definition settled (id : string) (store : DemoStore) : Prop :=
  match list_find (fun kb : string * Benefit => kb.1 = id) store with
  | Some (_, (_, b)) => ~ sendableB b
  | None => True
  end.

(** The identity of a stored object: its id, employee and month. *)
Definition identity (kb : string * Benefit) : string * string * string :=
  (kb.1, employeeId kb.2, month kb.2).

(** ** Further concrete inputs *)

Module Examples.

(** A CLT employee: VR 22 days at 25, VT fixed at 300, mobility 80. *)
Definition clt : Employee :=
  mkEmployee CLT
    (mkEmployeeBenefits (mkEmployeeVT true 12 22 300)
                        (mkEmployeeVR true 25 22 false [])
                        (mkMob true 80) false false).

Definition staff : Employees := {[ "emp-1" := clt ]}.

(** A session that creates the record of emp-1 for 2024-01, uploads a
    schedule, and then runs a calculation, a deduction, an approval and a
    submission. *)
Definition session : list AnyRequest :=
  [ ReqEmployeeBenefit "emp-1" "1" "2024" "hr-1" "b1";
    ReqUploadSchedule "emp-1" "1" "2024" (Some 20) (Some 2) true "hr-1";
    Core (ReqCalculate "emp-1" "1" "2024" None None None "hr-1" "b2");
    Core (ReqDeduction "b1" "VR" 1705276800000 100 "Absence" None "hr-1" 1705300000000);
    Core (ReqApprove ["b1"] "hr-1");
    Core (ReqSendToFlash ["b1"] "hr-1" Fixtures.clock0) ].

End Examples.

(** * Properties *)

(** ** The calculators *)

Lemma sumDeductions_from (ds : list Deduction) (a : Z) :
  foldl (fun sum deduction => sum + amount deduction) a ds = a + sumDeductions ds.
Proof.
  unfold sumDeductions.
  revert a; induction ds as [|d ds IH]; intros a; simpl; [lia|].
  rewrite (IH (a + amount d)), (IH (0 + amount d)). lia.
Qed.

Lemma sumDeductions_snoc (ds : list Deduction) (d : Deduction) :
  sumDeductions (ds ++ [d]) = sumDeductions ds + amount d.
Proof. unfold sumDeductions. rewrite foldl_app. reflexivity. Qed.

Lemma sumDeductions_sumOver (ds : list Deduction) :
  sumDeductions ds = sumOver amount ds.
Proof.
  induction ds as [|d ds IH]; [reflexivity|].
  unfold sumDeductions; simpl. rewrite sumDeductions_from, IH. lia.
Qed.

(** C1. With VR enabled, [calculateVR] stores totalDays = businessDays +
    saturdays, totalAmount = totalDays * dailyValue and finalAmount =
    max(0, totalAmount - sum of the VR deductions' amounts), returns that
    finalAmount and touches nothing else; with VR disabled it returns 0 and
    leaves the document as it is.  The demo server's VR branch stores the
    same sub-document.  dailyValue 25, businessDays 22, saturdays 0 and no
    deduction give totalAmount 550 and finalAmount 550. *)
Theorem calculateVR_spec (b : Benefit) :
  let vr := valeRefeicao b in
  let ret := (Model.calculateVR b).1 in
  let b' := (Model.calculateVR b).2 in
  let vr' := valeRefeicao b' in
  (if vr_enabled vr then
     vr_totalDays vr' = vr_businessDays vr + vr_saturdays vr
     /\ vr_totalAmount vr' = vr_totalDays vr' * vr_dailyValue vr
     /\ vr_finalAmount vr' = Z.max 0 (vr_totalAmount vr' - sumOver amount (vr_deductions vr))
     /\ ret = vr_finalAmount vr'
     /\ vr_enabled vr' = true
     /\ vr_dailyValue vr' = vr_dailyValue vr
     /\ vr_businessDays vr' = vr_businessDays vr
     /\ vr_saturdays vr' = vr_saturdays vr
     /\ vr_deductions vr' = vr_deductions vr
     /\ b' = set_valeRefeicao vr' b
   else ret = 0 /\ b' = b)
  /\ valeRefeicao (Demo.calculateAmounts b) = vr'
  /\ (forall totalDays totalAmount finalAmount,
        let scenario := Fixtures.withVR (mkVR true 25 22 0 totalDays totalAmount [] finalAmount) in
        (Model.calculateVR scenario).1 = 550
        /\ vr_totalAmount (valeRefeicao (Model.calculateVR scenario).2) = 550
        /\ vr_finalAmount (valeRefeicao (Model.calculateVR scenario).2) = 550
        /\ vr_totalAmount (valeRefeicao (Demo.calculateAmounts scenario)) = 550
        /\ vr_finalAmount (valeRefeicao (Demo.calculateAmounts scenario)) = 550).
Proof.
  intros vr ret b' vr'. subst vr ret b' vr'.
  destruct b as [eid m [en dv bd sa td ta ds fa] vt mob st fp cb ub].
  unfold Model.calculateVR, Demo.calculateAmounts; simpl.
  rewrite <- sumDeductions_sumOver.
  split; [|split].
  - destruct en; simpl; repeat split; reflexivity.
  - destruct en; simpl; destruct (vt_enabled vt); reflexivity.
  - intros; repeat split; reflexivity.
Qed.

(** C7. With VT enabled, [calculateVT] stores totalAmount = fixedAmount,
    whatever totalDays and dailyValue are, and finalAmount = max(0,
    totalAmount - sum of the VT deductions' amounts), which it returns; with
    VT disabled it returns 0 and leaves the document as it is.  The demo
    server's VT branch stores the same sub-document.  fixedAmount 300 with
    one deduction of 50 gives finalAmount 250. *)
Theorem calculateVT_spec (b : Benefit) :
  let vt := valeTransporte b in
  let ret := (Model.calculateVT b).1 in
  let b' := (Model.calculateVT b).2 in
  let vt' := valeTransporte b' in
  (if vt_enabled vt then
     vt_totalAmount vt' = vt_fixedAmount vt
     /\ vt_finalAmount vt' = Z.max 0 (vt_totalAmount vt' - sumOver amount (vt_deductions vt))
     /\ ret = vt_finalAmount vt'
     /\ vt_enabled vt' = true
     /\ vt_fixedAmount vt' = vt_fixedAmount vt
     /\ vt_dailyValue vt' = vt_dailyValue vt
     /\ vt_totalDays vt' = vt_totalDays vt
     /\ vt_deductions vt' = vt_deductions vt
     /\ b' = set_valeTransporte vt' b
   else ret = 0 /\ b' = b)
  /\ (forall totalDays dailyValue,
        let other :=
          set_valeTransporte
            (mkVT (vt_enabled vt) (vt_fixedAmount vt) dailyValue totalDays
                  (vt_totalAmount vt) (vt_deductions vt) (vt_finalAmount vt)) b in
        (Model.calculateVT other).1 = ret
        /\ vt_totalAmount (valeTransporte (Model.calculateVT other).2) = vt_totalAmount vt'
        /\ vt_finalAmount (valeTransporte (Model.calculateVT other).2) = vt_finalAmount vt')
  /\ valeTransporte (Demo.calculateAmounts b) = vt'
  /\ (forall dailyValue totalDays totalAmount finalAmount,
        let scenario :=
          Fixtures.withVT (mkVT true 300 dailyValue totalDays totalAmount
                                [Fixtures.deductionOf 50 "Absence"] finalAmount) in
        (Model.calculateVT scenario).1 = 250
        /\ vt_totalAmount (valeTransporte (Model.calculateVT scenario).2) = 300
        /\ vt_finalAmount (valeTransporte (Model.calculateVT scenario).2) = 250
        /\ vt_finalAmount (valeTransporte (Demo.calculateAmounts scenario)) = 250).
Proof.
  intros vt ret b' vt'. subst vt ret b' vt'.
  destruct b as [eid m vr [en fx dv td ta ds fa] mob st fp cb ub].
  unfold Model.calculateVT, Demo.calculateAmounts; simpl.
  rewrite <- sumDeductions_sumOver.
  split; [|split; [|split]].
  - destruct en; simpl; repeat split; reflexivity.
  - intros; destruct en; simpl; repeat split; reflexivity.
  - destruct (vr_enabled vr), en; reflexivity.
  - intros; repeat split; reflexivity.
Qed.

(** ** The deduction ledger *)

Lemma eqb_VT_not_VR (benefitType : string) :
  String.eqb benefitType "VT" = true -> String.eqb benefitType "VR" = false.
Proof.
  intros H. apply String.eqb_eq in H. subst benefitType. reflexivity.
Qed.

Lemma calculateVR_frame (b : Benefit) :
  let b' := (Model.calculateVR b).2 in
  valeTransporte b' = valeTransporte b
  /\ vr_deductions (valeRefeicao b') = vr_deductions (valeRefeicao b)
  /\ mobilidade b' = mobilidade b
  /\ paymentStatus b' = paymentStatus b
  /\ flashPayment b' = flashPayment b.
Proof.
  unfold Model.calculateVR. destruct (vr_enabled (valeRefeicao b)); simpl; auto.
Qed.

Lemma calculateVT_frame (b : Benefit) :
  let b' := (Model.calculateVT b).2 in
  valeRefeicao b' = valeRefeicao b
  /\ vt_deductions (valeTransporte b') = vt_deductions (valeTransporte b)
  /\ mobilidade b' = mobilidade b
  /\ paymentStatus b' = paymentStatus b
  /\ flashPayment b' = flashPayment b.
Proof.
  unfold Model.calculateVT. destruct (vt_enabled (valeTransporte b)); simpl; auto.
Qed.

Lemma addDeduction_deductions (benefitType : string) (d : Deduction) (b : Benefit) :
  let b' := Model.addDeduction benefitType d b in
  vr_deductions (valeRefeicao b')
    = (if String.eqb benefitType "VR" then vr_deductions (valeRefeicao b) ++ [d]
       else vr_deductions (valeRefeicao b))
  /\ vt_deductions (valeTransporte b')
    = (if String.eqb benefitType "VT" then vt_deductions (valeTransporte b) ++ [d]
       else vt_deductions (valeTransporte b)).
Proof.
  unfold Model.addDeduction; simpl.
  set (pushed := if String.eqb benefitType "VR" then _ else _).
  destruct (calculateVT_frame (Model.calculateVR pushed).2) as (Hvr & Hvt & _).
  destruct (calculateVR_frame pushed) as (Hvt' & Hvr' & _).
  rewrite Hvr, Hvr', Hvt, Hvt'. subst pushed.
  destruct (String.eqb benefitType "VR") eqn:E1.
  - apply String.eqb_eq in E1; subst benefitType. simpl. auto.
  - destruct (String.eqb benefitType "VT"); simpl; auto.
Qed.

(** C4, as the code has it.  The deduction route and [addDeduction] check
    neither the amount nor the date: when the benefit id is stored, a
    deduction naming 'VR' or 'VT' and carrying a reason is appended to the
    deductions of that benefit type whatever its amount and date, the
    document is saved and the answer is 'Deduction added successfully'.
    The refusals are 'Benefit not found' for an unknown id and, on the
    Mongoose-backed server, 500 'Failed to add deduction' when the pushed
    deduction has no reason, which the schema requires; both leave the
    collection unchanged.  The demo server refuses an unknown id only, and
    its dispatch appends in the same way. *)
Theorem deduction_is_not_validated
    (benefitId benefitType : string) (date' amount' : Z) (reason' : string)
    (type' : option DeductionType) (uid : string) (now : Z) (db : Collection)
    (store : DemoStore) :
  let d := mkDeduction date' amount' reason' (default Absence type') uid now in
  let out := Routes.deduction benefitId benefitType date' amount' reason' type' uid now db in
  let added (b : Benefit) := mkBenefitBody "Deduction added successfully" (set_updatedBy uid b) in
  match db !! benefitId with
  | Some b =>
      let b' := Model.addDeduction benefitType d b in
      let demo := Demo.addDeduction benefitType d b in
      out = (if bool_decide ((benefitType = "VR" \/ benefitType = "VT") /\ reason' = "")
             then (db, ServerError "Failed to add deduction")
             else (<[benefitId := set_updatedBy uid b']> db, Ok (added b')))
      /\ vr_deductions (valeRefeicao b')
         = (if String.eqb benefitType "VR" then vr_deductions (valeRefeicao b) ++ [d]
            else vr_deductions (valeRefeicao b))
      /\ vt_deductions (valeTransporte b')
         = (if String.eqb benefitType "VT" then vt_deductions (valeTransporte b) ++ [d]
            else vt_deductions (valeTransporte b))
      /\ vr_deductions (valeRefeicao demo) = vr_deductions (valeRefeicao b')
      /\ vt_deductions (valeTransporte demo) = vt_deductions (valeTransporte b')
  | None => out = (db, NotFound "Benefit not found")
  end
  /\ Demo.deduction benefitId benefitType date' amount' reason' type' uid now store
     = match list_find (fun kb => kb.1 = benefitId) store with
       | Some (i, (id, b)) =>
           (<[i := (id, set_updatedBy uid (Demo.addDeduction benefitType d b))]> store,
            Ok (added (Demo.addDeduction benefitType d b)))
       | None => (store, NotFound "Benefit not found")
       end.
Proof.
  intros d out added. subst out added. split.
  - unfold Routes.deduction, findById.
    destruct (db !! benefitId) as [b|] eqn:Hb; [|reflexivity].
    cbv zeta. fold d.
    destruct (addDeduction_deductions benefitType d b) as [Hvr Hvt].
    split; [|split; [exact Hvr|]; split; [exact Hvt|]].
    + unfold Routes.pushed, Routes.validDeduction. subst d. simpl.
      destruct (String.eqb benefitType "VR") eqn:E1;
        [|destruct (String.eqb benefitType "VT") eqn:E2].
      * apply String.eqb_eq in E1. simpl.
        destruct (String.eqb reason' "") eqn:E3; simpl.
        -- apply String.eqb_eq in E3. rewrite bool_decide_eq_true_2 by auto. reflexivity.
        -- apply String.eqb_neq in E3. rewrite bool_decide_eq_false_2 by tauto. reflexivity.
      * apply String.eqb_eq in E2. simpl.
        destruct (String.eqb reason' "") eqn:E3; simpl.
        -- apply String.eqb_eq in E3. rewrite bool_decide_eq_true_2 by auto. reflexivity.
        -- apply String.eqb_neq in E3. rewrite bool_decide_eq_false_2 by tauto. reflexivity.
      * apply String.eqb_neq in E1, E2.
        rewrite bool_decide_eq_false_2 by tauto. reflexivity.
    + rewrite Hvr, Hvt. unfold Demo.addDeduction.
      destruct (String.eqb benefitType "VR") eqn:E1.
      * apply String.eqb_eq in E1; subst benefitType. simpl. auto.
      * destruct (String.eqb benefitType "VT"); simpl; auto.
  - unfold Demo.deduction.
    destruct (list_find _ store) as [[i [id b]]|]; reflexivity.
Qed.

(** C4 fails as stated: a deduction of amount -10 posted for the stored
    document b1 (VR final amount 550) is accepted, appended and saved, and
    the stored final amount becomes 560. *)
Lemma deduction_accepts_nonpositive_amount :
  let d := mkDeduction 1705276800000 (-10) "Adjustment" Absence "hr-1" 1705300000000 in
  let out := Routes.deduction "b1" "VR" 1705276800000 (-10) "Adjustment" None
                              "hr-1" 1705300000000 Fixtures.db_vr550 in
  amount d <= 0
  /\ (exists b', out.2 = Ok (mkBenefitBody "Deduction added successfully" b'))
  /\ (vr_deductions ∘ valeRefeicao) <$> (out.1 !! "b1") = Some [d]
  /\ (vr_finalAmount ∘ valeRefeicao) <$> (out.1 !! "b1") = Some 560
  /\ (vr_finalAmount ∘ valeRefeicao) <$> (Fixtures.db_vr550 !! "b1") = Some 550.
Proof.
  cbv zeta. split; [simpl; lia|]. split; [eexists; vm_compute; reflexivity|].
  repeat split; vm_compute; reflexivity.
Qed.

(** C9, as the code has it.  [addDeduction] with 'VR' leaves the VT
    deductions alone but re-runs [calculateVT] as well: the VT sub-document
    afterwards is the one [calculateVT] computes from the stored VT fields,
    so it is unchanged when VT had already been calculated (and
    symmetrically for 'VT' and the VR sub-document).  Only the demo
    server's dispatch leaves the other sub-document untouched in every
    case. *)
Theorem addDeduction_other_benefit (d : Deduction) (b : Benefit) :
  valeTransporte (Model.addDeduction "VR" d b) = valeTransporte (Model.calculateVT b).2
  /\ vt_deductions (valeTransporte (Model.addDeduction "VR" d b))
     = vt_deductions (valeTransporte b)
  /\ valeRefeicao (Model.addDeduction "VT" d b) = valeRefeicao (Model.calculateVR b).2
  /\ vr_deductions (valeRefeicao (Model.addDeduction "VT" d b))
     = vr_deductions (valeRefeicao b)
  /\ valeTransporte (Model.addDeduction "VR" d (Model.calculateVT b).2)
     = valeTransporte (Model.calculateVT b).2
  /\ valeRefeicao (Model.addDeduction "VT" d (Model.calculateVR b).2)
     = valeRefeicao (Model.calculateVR b).2
  /\ (if vt_enabled (valeTransporte b) then True
      else valeTransporte (Model.addDeduction "VR" d b) = valeTransporte b)
  /\ (if vr_enabled (valeRefeicao b) then True
      else valeRefeicao (Model.addDeduction "VT" d b) = valeRefeicao b)
  /\ valeTransporte (Demo.addDeduction "VR" d b) = valeTransporte b
  /\ valeRefeicao (Demo.addDeduction "VT" d b) = valeRefeicao b.
Proof.
  destruct b as [eid m [en dv bd sa td ta ds fa] [en' fx dv' td' ta' ds' fa'] mob st fp cb ub].
  unfold Model.addDeduction, Model.calculateVR, Model.calculateVT,
    Demo.addDeduction, Model.push_vr, Model.push_vt; simpl.
  destruct en, en'; simpl; repeat split; reflexivity.
Qed.

(** C9 fails as stated: on a document created for a fixed transport amount
    of 300 and not yet calculated (VT totalAmount and finalAmount 0), a VR
    deduction changes the VT sub-document to totalAmount 300 and finalAmount
    300. *)
Lemma addDeduction_VR_changes_VT :
  let d := Fixtures.deductionOf 100 "Absence" in
  let b' := Model.addDeduction "VR" d Fixtures.created300 in
  vt_totalAmount (valeTransporte Fixtures.created300) = 0
  /\ vt_finalAmount (valeTransporte Fixtures.created300) = 0
  /\ vt_totalAmount (valeTransporte b') = 300
  /\ vt_finalAmount (valeTransporte b') = 300
  /\ valeTransporte b' <> valeTransporte Fixtures.created300.
Proof. cbv zeta. repeat split; try reflexivity. vm_compute. discriminate. Qed.

(** C10. With a benefit type other than 'VR' and 'VT', [addDeduction]
    appends to neither deductions list and still runs [calculateVR] and
    then [calculateVT]; the route saves the document and answers 'Deduction
    added successfully'.  Stored amounts that were stale change: on the
    document created for a fixed amount of 300 the VT final amount goes from
    0 to 300. *)
Theorem addDeduction_unknown_type
    (benefitId benefitType : string) (date' amount' : Z) (reason' : string)
    (type' : option DeductionType) (uid : string) (now : Z) (db : Collection)
    (b : Benefit) :
  benefitType <> "VR" -> benefitType <> "VT" -> db !! benefitId = Some b ->
  let d := mkDeduction date' amount' reason' (default Absence type') uid now in
  let b' := Model.addDeduction benefitType d b in
  vr_deductions (valeRefeicao b') = vr_deductions (valeRefeicao b)
  /\ vt_deductions (valeTransporte b') = vt_deductions (valeTransporte b)
  /\ b' = (Model.calculateVT (Model.calculateVR b).2).2
  /\ Routes.deduction benefitId benefitType date' amount' reason' type' uid now db
     = (<[benefitId := set_updatedBy uid b']> db,
        Ok (mkBenefitBody "Deduction added successfully" (set_updatedBy uid b')))
  /\ vt_finalAmount (valeTransporte Fixtures.created300) = 0
  /\ vt_finalAmount (valeTransporte (Model.addDeduction benefitType d Fixtures.created300)) = 300.
Proof.
  intros Hvr Hvt Hb d b'.
  apply String.eqb_neq in Hvr, Hvt.
  assert (Hrun : forall x, Model.addDeduction benefitType d x
                           = (Model.calculateVT (Model.calculateVR x).2).2).
  { intros x. unfold Model.addDeduction. rewrite Hvr, Hvt. reflexivity. }
  destruct (addDeduction_deductions benefitType d b) as [H1 H2].
  rewrite Hvr in H1. rewrite Hvt in H2.
  repeat split.
  - exact H1.
  - exact H2.
  - apply Hrun.
  - unfold Routes.deduction, Routes.pushed, findById. rewrite Hb, Hvr, Hvt. reflexivity.
  - rewrite Hrun. reflexivity.
Qed.

Lemma addDeduction_unknown_type_witness :
  let d := mkDeduction 1705276800000 40 "Parking" Absence "hr-1" 1705300000000 in
  let b' := Model.addDeduction "MOB" d Fixtures.created300 in
  vr_deductions (valeRefeicao b') = []
  /\ vt_deductions (valeTransporte b') = []
  /\ b' = (Model.calculateVT (Model.calculateVR Fixtures.created300).2).2
  /\ Routes.deduction "b1" "MOB" 1705276800000 40 "Parking" None "hr-1"
                      1705300000000 Fixtures.db_created300
     = (<["b1" := set_updatedBy "hr-1" b']> Fixtures.db_created300,
        Ok (mkBenefitBody "Deduction added successfully" (set_updatedBy "hr-1" b')))
  /\ vt_finalAmount (valeTransporte Fixtures.created300) = 0
  /\ vt_finalAmount (valeTransporte b') = 300.
Proof.
  exact (addDeduction_unknown_type "b1" "MOB" 1705276800000 40 "Parking" None
           "hr-1" 1705300000000 Fixtures.db_created300 Fixtures.created300
           ltac:(discriminate) ltac:(discriminate) ltac:(reflexivity)).
Defined.

(** ** Queries and saves on the collection *)

Section Collection.
Context (query : string * Benefit -> Prop) `{!forall kb, Decision (query kb)}.

Lemma elem_of_find (db : Collection) (k : string) (b : Benefit) :
  (k, b) ∈ find query db <-> db !! k = Some b /\ query (k, b).
Proof.
  unfold find. rewrite list_elem_of_filter, elem_of_map_to_list. tauto.
Qed.

Lemma NoDup_find (db : Collection) : NoDup (find query db).*1.
Proof.
  unfold find. eapply sublist_NoDup; [apply (NoDup_fst_map_to_list db)|].
  apply fmap_sublist, sublist_filter.
Qed.

Lemma list_find_find_Some (db : Collection) (k : string) (j : nat)
    (kb : string * Benefit) :
  list_find (fun x => x.1 = k) (find query db) = Some (j, kb) ->
  kb.1 = k /\ db !! k = Some kb.2 /\ query kb.
Proof.
  intros Hf. apply list_find_Some in Hf as (Hj & Hk & _).
  apply list_elem_of_lookup_2 in Hj. destruct kb as [k' b]. simpl in *. subst k'.
  apply elem_of_find in Hj. tauto.
Qed.

Lemma list_find_find_None (db : Collection) (k : string) (b : Benefit) :
  list_find (fun x => x.1 = k) (find query db) = None ->
  db !! k = Some b -> ~ query (k, b).
Proof.
  intros Hf Hb Hq. apply list_find_None in Hf. rewrite Forall_forall in Hf.
  apply (Hf (k, b)); [|reflexivity]. apply elem_of_find. auto.
Qed.
End Collection.

Lemma foldl_save_lookup (f : Benefit -> Benefit) (l : list (string * Benefit))
    (db : Collection) (k : string) :
  NoDup l.*1 ->
  foldl (fun db kb => save kb.1 (f kb.2) db) db l !! k
  = match list_find (fun x => x.1 = k) l with
    | Some (_, kb) => Some (f kb.2)
    | None => db !! k
    end.
Proof.
  revert db. induction l as [|[id b] l IH]; intros db Hnd; [reflexivity|].
  apply NoDup_cons in Hnd as [Hid Hnd]. simpl. rewrite (IH _ Hnd).
  destruct (decide (id = k)) as [->|Hne].
  - assert (Hnone : list_find (fun x : string * Benefit => x.1 = k) l = None).
    { apply list_find_None, Forall_forall. intros [k' b'] Hin Heq. simpl in Heq.
      subst k'. apply Hid. apply list_elem_of_fmap. exists (k, b'). auto. }
    rewrite Hnone. unfold save. apply lookup_insert_eq.
  - destruct (list_find _ l) as [[j kb]|]; simpl; [reflexivity|].
    unfold save. apply lookup_insert_ne. exact Hne.
Qed.

(** ** Approval *)

Lemma approve_lookup (benefitIds : list string) (uid : string) (db : Collection)
    (k : string) :
  (Routes.approve benefitIds uid db).1 !! k
  = if decide (k ∈ benefitIds) then Routes.approveOne uid <$> db !! k else db !! k.
Proof.
  unfold Routes.approve. simpl.
  rewrite (foldl_save_lookup (Routes.approveOne uid)) by apply NoDup_find.
  destruct (list_find _ _) as [[j kb]|] eqn:Hfind.
  - apply list_find_find_Some in Hfind as (<- & Hb & Hq).
    rewrite decide_True by exact Hq. rewrite Hb. reflexivity.
  - destruct (decide (k ∈ benefitIds)) as [Hin|]; [|reflexivity].
    destruct (db !! k) as [b|] eqn:Hb; [|reflexivity].
    exfalso. eapply (list_find_find_None _ db k b Hfind Hb). exact Hin.
Qed.

Lemma list_find_id_Some (store : DemoStore) (id : string) (i : nat) (kb : string * Benefit) :
  list_find (fun x => x.1 = id) store = Some (i, kb) ->
  store !! i = Some kb /\ kb.1 = id /\ id ∉ (take i store).*1.
Proof.
  intros Hf. apply list_find_Some in Hf as (Hi & Hid & Hfirst).
  split; [exact Hi|]. split; [exact Hid|].
  intros Hin. apply list_elem_of_fmap in Hin as ([k' b'] & -> & Hin).
  apply elem_of_take in Hin as (j & Hj & Hlt).
  exact (Hfirst j (k', b') Hj Hlt eq_refl).
Qed.

Lemma list_find_id_None (store : DemoStore) (id : string) :
  list_find (fun x => x.1 = id) store = None -> id ∉ store.*1.
Proof.
  intros Hf Hin. apply list_find_None in Hf. rewrite Forall_forall in Hf.
  apply list_elem_of_fmap in Hin as (kb & -> & Hin). exact (Hf kb Hin eq_refl).
Qed.

Lemma demo_approve_loop (uid : string) (benefitIds : list string) :
  forall (store : DemoStore) (n : nat),
  let r := foldl (Demo.approveStep uid) (store, n) benefitIds in
  r.1.*1 = store.*1
  /\ (forall i kb, store !! i = Some kb ->
        r.1 !! i
        = Some (if decide (kb.1 ∈ benefitIds /\ kb.1 ∉ (take i store).*1)
                then (kb.1, Routes.approveOne uid kb.2) else kb))
  /\ r.2 = (n + length (filter (fun id => id ∈ store.*1) benefitIds))%nat.
Proof.
  induction benefitIds as [|id ids IH]; intros store n; simpl.
  - split; [reflexivity|]. split; [|lia].
    intros i kb Hkb. rewrite Hkb. reflexivity.
  - destruct (list_find (fun kb : string * Benefit => kb.1 = id) store)
      as [[i0 [id0 b0]]|] eqn:Hfind.
    + apply list_find_id_Some in Hfind as (Hi0 & Hid0 & Hfirst). simpl in Hid0. subst id0.
      set (store' := <[i0 := (id, set_updatedBy uid (set_paymentStatus Approved b0))]> store).
      assert (Hids : store'.*1 = store.*1).
      { subst store'. rewrite list_fmap_insert. simpl. apply list_insert_id.
        rewrite list_lookup_fmap, Hi0. reflexivity. }
      destruct (IH store' (S n)) as (H1 & H2 & H3).
      split; [congruence|]. split.
      * intros i kb Hkb. destruct (decide (i = i0)) as [->|Hne].
        -- rewrite Hi0 in Hkb. injection Hkb as <-.
           rewrite (H2 i0 (id, Routes.approveOne uid b0)).
           2:{ subst store'. apply list_lookup_insert_eq. eapply lookup_lt_Some, Hi0. }
           simpl. rewrite (decide_True (P := id ∈ id :: ids /\ _)).
           2:{ split; [left | exact Hfirst]. }
           destruct (decide _); reflexivity.
        -- rewrite (H2 i kb).
           2:{ subst store'. rewrite list_lookup_insert_ne by congruence. exact Hkb. }
           rewrite fmap_take, Hids, <- fmap_take.
           destruct (decide (kb.1 = id)) as [Heq|Hneq].
           ++ assert (Hseen : kb.1 ∈ (take i store).*1).
              { destruct (decide (i0 < i)%nat) as [Hlt|Hge].
                - apply list_elem_of_fmap. exists (id, b0). split; [auto|].
                  apply elem_of_take. exists i0. auto.
                - exfalso. apply Hfirst. apply list_elem_of_fmap. exists kb.
                  split; [auto|]. apply elem_of_take. exists i. split; [exact Hkb | lia]. }
              rewrite !decide_False by tauto. reflexivity.
           ++ destruct (decide (kb.1 ∈ ids /\ _)) as [[Ha Hb]|Hn].
              ** rewrite decide_True; [reflexivity|]. split; [right; exact Ha | exact Hb].
              ** rewrite decide_False; [reflexivity|]. intros [Ha Hb]. apply Hn.
                 split; [|exact Hb]. inversion Ha; subst; [congruence | assumption].
      * rewrite H3, Hids, filter_cons, decide_True; [simpl; lia|].
        apply list_elem_of_fmap. exists (id, b0). split; [reflexivity|].
        eapply list_elem_of_lookup_2, Hi0.
    + apply list_find_id_None in Hfind.
      destruct (IH store n) as (H1 & H2 & H3).
      split; [exact H1|]. split.
      * intros i kb Hkb. rewrite (H2 i kb Hkb).
        assert (Hne : kb.1 <> id).
        { intros <-. apply Hfind. apply list_elem_of_fmap. exists kb. split; [reflexivity|].
          eapply list_elem_of_lookup_2, Hkb. }
        destruct (decide (kb.1 ∈ ids /\ _)) as [[Ha Hb]|Hn].
        -- rewrite decide_True; [reflexivity|]. split; [right; exact Ha | exact Hb].
        -- rewrite decide_False; [reflexivity|]. intros [Ha Hb]. apply Hn.
           split; [|exact Hb]. inversion Ha; subst; [congruence | assumption].
      * rewrite H3, filter_cons, decide_False by exact Hfind. reflexivity.
Qed.

(** C3, as the code has it.  The approve route does not look at the
    payment status: every stored document whose id is in the list becomes
    Approved (with [updatedBy] set) whatever its state was, every other
    document is left as it is, and the answer is always the success message
    with the number of stored documents the list names; no document is
    skipped and no state makes the call fail.  The demo server does the
    same to the first object carrying each listed id, and counts the listed
    ids that are stored. *)
Theorem approve_ignores_status (benefitIds : list string) (uid : string)
    (db : Collection) (k : string) (store : DemoStore) (i : nat) :
  let approved b := set_updatedBy uid (set_paymentStatus Approved b) in
  let out := Routes.approve benefitIds uid db in
  let demo := Demo.approve benefitIds uid store in
  out.1 !! k = (if decide (k ∈ benefitIds) then approved <$> db !! k else db !! k)
  /\ out.2 = Ok (pretty (length (filter (fun kb : string * Benefit => kb.1 ∈ benefitIds)
                                         (map_to_list db)))
                 +:+ " benefits approved for payment")
  /\ demo.1 !! i
     = (fun kb : string * Benefit =>
          if decide (kb.1 ∈ benefitIds /\ kb.1 ∉ (take i store).*1)
          then (kb.1, approved kb.2) else kb) <$> store !! i
  /\ demo.2 = Ok (pretty (length (filter (fun id => id ∈ store.*1) benefitIds))
                  +:+ " benefits approved for payment").
Proof.
  intros approved out demo. subst out demo.
  split; [apply approve_lookup|]. split; [reflexivity|].
  unfold Demo.approve.
  destruct (demo_approve_loop uid benefitIds store 0) as (Hids & Hlook & Hcount).
  destruct (foldl (Demo.approveStep uid) (store, 0%nat) benefitIds) as [store' count].
  simpl in *. split.
  - destruct (store !! i) as [kb|] eqn:Hkb; simpl.
    + apply (Hlook i kb Hkb).
    + apply lookup_ge_None. apply lookup_ge_None in Hkb.
      rewrite <- (length_fmap fst store'), Hids, length_fmap. exact Hkb.
  - rewrite Hcount. reflexivity.
Qed.

(** C3 fails as stated: approving b1 (Calculated), b2 (Paid) and b3
    (Pending) turns all three into Approved and reports 3 approved; in the
    demo server as well. *)
Lemma approve_approves_paid_and_pending :
  let out := Routes.approve ["b1"; "b2"; "b3"] "hr-1" Fixtures.db_workflow in
  let demo := Demo.approve ["b1"; "b2"; "b3"] "hr-1" Fixtures.demo_workflow in
  paymentStatus <$> Fixtures.db_workflow !! "b2" = Some Paid
  /\ paymentStatus <$> Fixtures.db_workflow !! "b3" = Some Pending
  /\ paymentStatus <$> out.1 !! "b2" = Some Approved
  /\ paymentStatus <$> out.1 !! "b3" = Some Approved
  /\ out.2 = Ok "3 benefits approved for payment"
  /\ (paymentStatus ∘ snd) <$> demo.1 = [Approved; Approved; Approved]
  /\ demo.2 = Ok "3 benefits approved for payment".
Proof. cbv zeta. repeat split; vm_compute; reflexivity. Qed.

(** ** Submission to Flash *)

Lemma sendToFlash_fields (uid : string) (t : Z) (b : Benefit) :
  let b' := Model.sendToFlash uid t b in
  sent (flashPayment b') = true
  /\ sentAt (flashPayment b') = Some t
  /\ sentBy (flashPayment b') = Some uid
  /\ flashStatus (flashPayment b') = FlashPending
  /\ flashReference (flashPayment b') = flashReference (flashPayment b)
  /\ paymentStatus b' = Approved
  /\ valeRefeicao b' = valeRefeicao b
  /\ valeTransporte b' = valeTransporte b
  /\ mobilidade b' = mobilidade b
  /\ Model.totalBenefitAmount b' = Model.totalBenefitAmount b
  /\ Routes.employeeDatum b' = Routes.employeeDatum b.
Proof. repeat split; reflexivity. Qed.

Lemma sendLoop_spec (uid : string) (clock : nat -> Z) (l : list (string * Benefit)) :
  forall (i : nat) (db : Collection) (t : Z) (e : list EmployeeDatum),
  NoDup l.*1 ->
  let r := Routes.sendLoop uid clock i l (db, t, e) in
  (forall k,
      r.1.1 !! k
      = match list_find (fun x => x.1 = k) l with
        | Some (j, kb) => Some (Model.sendToFlash uid (clock (i + j)%nat) kb.2)
        | None => db !! k
        end)
  /\ r.1.2 = t + sumOver Model.totalBenefitAmount l.*2
  /\ r.2 = e ++ (Routes.employeeDatum <$> l.*2).
Proof.
  induction l as [|[id b] l IH]; intros i db t e Hnd; simpl.
  - repeat split; [lia | symmetry; apply app_nil_r].
  - rewrite fmap_cons, NoDup_cons in Hnd. destruct Hnd as [Hid Hnd].
    destruct (IH (S i) (save id (Model.sendToFlash uid (clock i) b) db)
                 (t + Model.totalBenefitAmount (Model.sendToFlash uid (clock i) b))
                 (e ++ [Routes.employeeDatum (Model.sendToFlash uid (clock i) b)]) Hnd)
      as (Hk & Ht & He).
    split; [|split].
    + intros k. rewrite Hk.
      destruct (decide (id = k)) as [->|Hne].
      * assert (Hnone : list_find (fun x : string * Benefit => x.1 = k) l = None).
        { apply list_find_None, Forall_forall. intros [k' b'] Hin Heq. simpl in Heq.
          subst k'. apply Hid. apply list_elem_of_fmap. exists (k, b'). auto. }
        rewrite Hnone. simpl. rewrite Nat.add_0_r. unfold save. apply lookup_insert_eq.
      * destruct (list_find _ l) as [[j kb]|]; simpl.
        -- rewrite Nat.add_succ_r. reflexivity.
        -- unfold save. apply lookup_insert_ne. exact Hne.
    + rewrite Ht. change (Model.totalBenefitAmount (Model.sendToFlash uid (clock i) b))
        with (Model.totalBenefitAmount b).
      unfold sumOver. simpl. rewrite <- Z.add_assoc. reflexivity.
    + rewrite He, <- app_assoc. reflexivity.
Qed.

(** C2, as the code has it.  POST /send-to-flash changes exactly the stored
    documents that are requested, Approved and not yet sent: each gets
    sent = true, sentAt and sentBy, and its flashStatus set to Pending, while
    its flashReference and its amounts stay as they were; every other
    document is untouched.  The answer carries the batch: totalAmount is the
    sum of the selected documents' totalBenefitAmount, employeeCount their
    number, with one reference and the status Processing for the batch.  Two
    approved documents worth 450 and 250 give totalAmount 700 and
    employeeCount 2. *)
Theorem sendToFlash_batch (benefitIds : list string) (uid : string)
    (clock : nat -> Z) (db : Collection) (k : string) :
  let selected := find (Routes.sendable benefitIds) db in
  let out := Routes.sendToFlash benefitIds uid clock db in
  match db !! k with
  | Some b =>
      if decide (k ∈ benefitIds /\ paymentStatus b = Approved
                 /\ sent (flashPayment b) = false)
      then exists j, (j < length selected)%nat /\
             out.1 !! k
             = Some (set_paymentStatus Approved
                       (set_flashPayment
                          (mkFlash true (Some (clock j)) (Some uid)
                                   (flashReference (flashPayment b)) FlashPending) b))
      else out.1 !! k = Some b
  | None => out.1 !! k = None
  end
  /\ out.2
     = Ok (mkFlashBody
             (pretty (length selected) +:+ " benefits sent to Flash")
             (mkFlashResponse true ("FLASH-" +:+ pretty (clock (length selected)))
                              (sumOver Model.totalBenefitAmount selected.*2)
                              (length selected) FlashProcessing)
             (sumOver Model.totalBenefitAmount selected.*2)
             (Routes.employeeDatum <$> selected.*2))
  /\ (Routes.sendToFlash ["a1"; "a2"; "a3"] "hr-1" Fixtures.clock0 Fixtures.db_approved).2
     = Ok (mkFlashBody "2 benefits sent to Flash"
             (mkFlashResponse true "FLASH-1706000000002" 700 2 FlashProcessing)
             700
             [mkEmployeeDatum "emp-1" 450 450 0 0; mkEmployeeDatum "emp-1" 250 0 250 0]).
Proof.
  intros selected out. subst out. unfold Routes.sendToFlash. fold selected.
  destruct (sendLoop_spec uid clock selected 0 db 0 [] (NoDup_find _ db))
    as (Hk & Ht & He).
  destruct (Routes.sendLoop uid clock 0 selected (db, 0, [])) as [[db' total] data].
  simpl in Hk, Ht, He. simpl.
  split; [|split].
  - rewrite Hk. destruct (list_find _ selected) as [[j kb]|] eqn:Hfind.
    + pose proof Hfind as Hj. apply list_find_Some in Hj as (Hj & _).
      apply lookup_lt_Some in Hj.
      apply list_find_find_Some in Hfind as (<- & Hb & Hq).
      rewrite Hb. rewrite decide_True by exact Hq.
      exists j. split; [exact Hj | reflexivity].
    + destruct (db !! k) as [b|] eqn:Hb; [|reflexivity].
      rewrite decide_False; [reflexivity|].
      exact (list_find_find_None _ db k b Hfind Hb).
  - rewrite Ht, He, Z.add_0_l. reflexivity.
  - vm_compute. reflexivity.
Qed.

(** C2 fails as stated: after the batch a1, a2 is submitted, both documents
    are stored with flashStatus Pending, not Processing, and with no
    flashReference at all; in the demo server the two documents get
    different references. *)
Lemma sendToFlash_status_and_reference :
  let out := Routes.sendToFlash ["a1"; "a2"] "hr-1" Fixtures.clock0 Fixtures.db_approved in
  let demo := Demo.sendToFlash ["a1"; "a2"] "hr-1" Fixtures.clock0 Fixtures.demo_approved in
  (flashStatus ∘ flashPayment) <$> out.1 !! "a1" = Some FlashPending
  /\ (flashStatus ∘ flashPayment) <$> out.1 !! "a2" = Some FlashPending
  /\ (flashReference ∘ flashPayment) <$> out.1 !! "a1" = Some None
  /\ (flashReference ∘ flashPayment) <$> out.1 !! "a2" = Some None
  /\ (flashReference ∘ flashPayment ∘ snd) <$> demo.1 !! 0%nat
     = Some (Some "FLASH-1706000000001-1")
  /\ (flashReference ∘ flashPayment ∘ snd) <$> demo.1 !! 1%nat
     = Some (Some "FLASH-1706000000004-2").
Proof. cbv zeta. repeat split; vm_compute; reflexivity. Qed.

(** ** Calculation requests *)

Lemma demo_calculateAmounts_model (b : Benefit) :
  Demo.calculateAmounts b = (Model.calculateVT (Model.calculateVR b).2).2.
Proof.
  destruct b as [eid m [en dv bd sa td ta ds fa] [en' fx dv' td' ta' ds' fa'] mob st fp cb ub].
  unfold Demo.calculateAmounts, Model.calculateVR, Model.calculateVT; simpl.
  destruct en, en'; reflexivity.
Qed.




(** ** Statistics *)

Lemma foldl_add_sumOver {A} (f : A -> Z) (l : list A) (a : Z) :
  foldl (fun acc x => acc + f x) a l = a + sumOver f l.
Proof.
  revert a; induction l as [|x l IH]; intros a; simpl; [lia|].
  rewrite IH. unfold sumOver; simpl. lia.
Qed.

Lemma sumOver_ext {A} (f g : A -> Z) (l : list A) :
  (forall x, f x = g x) -> sumOver f l = sumOver g l.
Proof.
  intros Hfg. induction l as [|x l IH]; [reflexivity|].
  unfold sumOver in *; simpl. rewrite Hfg, IH. reflexivity.
Qed.

Lemma sumOver_indicator {A} (P : A -> Prop) `{!forall x, Decision (P x)} (l : list A) :
  sumOver (fun x => if decide (P x) then 1 else 0) l = countWhere P l.
Proof.
  unfold countWhere. induction l as [|x l IH]; [reflexivity|].
  unfold sumOver in *; simpl. rewrite IH, filter_cons.
  destruct (decide (P x)); simpl; lia.
Qed.

Lemma sumOver_one {A} (l : list A) : sumOver (fun _ => 1) l = Z.of_nat (length l).
Proof.
  induction l as [|x l IH]; [reflexivity|].
  unfold sumOver in *; simpl length. simpl foldr. rewrite IH. lia.
Qed.

Lemma orZero_id (x : Z) : Demo.orZero x = x.
Proof. unfold Demo.orZero. destruct (decide (x = 0)); congruence. Qed.

Lemma sumPath_stored (path : string) (f : Benefit -> Z) (docs : list Benefit) :
  (forall doc, Routes.storedNumber path doc = Some (f doc)) ->
  Routes.sumPath path docs = sumOver f docs.
Proof.
  intros Hp. unfold Routes.sumPath. rewrite foldl_add_sumOver, Z.add_0_l.
  apply sumOver_ext. intros doc. rewrite Hp. reflexivity.
Qed.

Lemma sumStatus_count (s : PaymentStatus) (docs : list Benefit) :
  Routes.sumStatus s docs = countWhere (inStatus s) docs.
Proof.
  unfold Routes.sumStatus.
  rewrite (foldl_add_sumOver (fun doc => if decide (paymentStatus doc = s) then 1 else 0)).
  rewrite Z.add_0_l. apply (sumOver_indicator (fun b => paymentStatus b = s)).
Qed.

Lemma count_by_status (docs : list Benefit) :
  Z.of_nat (length docs)
  = countWhere (inStatus Pending) docs
    + countWhere (inStatus Calculated) docs
    + countWhere (inStatus Approved) docs
    + countWhere (inStatus Paid) docs
    + countWhere (inStatus Cancelled) docs.
Proof.
  unfold countWhere. induction docs as [|b docs IH]; [reflexivity|].
  rewrite !filter_cons.
  repeat match goal with
         | |- context [decide (inStatus ?s b)] =>
             let Hs := fresh "Hs" in
             destruct (decide (inStatus s b)) as [Hs|Hs]; unfold inStatus in Hs
         end;
    simpl length; try lia;
    exfalso; destruct (paymentStatus b) eqn:Hb; congruence.
Qed.

Lemma reduceTotal_from (bs : list Benefit) (a : Z) :
  foldl (fun sum b => sum + Demo.orZero (vr_finalAmount (valeRefeicao b))
                          + Demo.orZero (vt_finalAmount (valeTransporte b))
                          + Demo.orZero (mob_monthlyValue (mobilidade b))) a bs
  = a + sumOver (fun b => vr_finalAmount (valeRefeicao b) + vt_finalAmount (valeTransporte b)
                          + mob_monthlyValue (mobilidade b)) bs.
Proof.
  revert a; induction bs as [|b bs IH]; intros a; simpl.
  - unfold sumOver; simpl. lia.
  - rewrite IH, !orZero_id. unfold sumOver; simpl. lia.
Qed.

Lemma reduceTotal_sumOver (bs : list Benefit) :
  Demo.reduceTotal bs
  = sumOver (fun b => vr_finalAmount (valeRefeicao b) + vt_finalAmount (valeTransporte b)
                      + mob_monthlyValue (mobilidade b)) bs.
Proof. unfold Demo.reduceTotal. rewrite reduceTotal_from. lia. Qed.

(** The virtual [totalBenefitAmount] is no stored path: the pipeline's
    [$sum: '$totalBenefitAmount'] adds nothing. *)
Lemma aggregate_totalBenefitAmount (docs : list Benefit) :
  Routes.sumPath "totalBenefitAmount" docs = 0.
Proof.
  unfold Routes.sumPath. rewrite (foldl_add_sumOver (fun _ => 0)).
  induction docs as [|d docs IH]; [reflexivity|].
  unfold sumOver in *; simpl in *. lia.
Qed.

(** C8, as the code has it.  The statistics route changes nothing and rolls
    up every stored document of the month, cancelled ones included: totalVR,
    totalVT and totalMobilidade are the sums of the stored
    valeRefeicao.finalAmount, valeTransporte.finalAmount and
    mobilidade.monthlyValue, employeeCount is the number of those documents,
    and the pending, calculated, approved and paid counts are the numbers of
    them in each status, so that employeeCount exceeds their sum by the
    number of cancelled documents.  The demo server reports the same sums
    over its objects of the month, and as grand total the sum of the three
    stored amounts of each object, whether or not the benefit is enabled. *)
Theorem statistics_rollup (month' year' : string) (db : Collection) (store : DemoStore) :
  let m := monthStr year' month' in
  let docs := (find (fun kb => month kb.2 = m) db).*2 in
  let objs := (filter (fun kb : string * Benefit => month kb.2 = m) store).*2 in
  let vrOf b := vr_finalAmount (valeRefeicao b) in
  let vtOf b := vt_finalAmount (valeTransporte b) in
  let mobOf b := mob_monthlyValue (mobilidade b) in
  let out := Routes.statistics month' year' db in
  out.1 = db
  /\ match out.2 with
     | Ok stats =>
         totalVR stats = sumOver vrOf docs
         /\ totalVT stats = sumOver vtOf docs
         /\ totalMobilidade stats = sumOver mobOf docs
         /\ employeeCount stats = Z.of_nat (length docs)
         /\ pendingCount stats = countWhere (inStatus Pending) docs
         /\ calculatedCount stats = countWhere (inStatus Calculated) docs
         /\ approvedCount stats = countWhere (inStatus Approved) docs
         /\ paidCount stats = countWhere (inStatus Paid) docs
         /\ employeeCount stats
            = pendingCount stats + calculatedCount stats + approvedCount stats
              + paidCount stats + countWhere (inStatus Cancelled) docs
     | _ => False
     end
  /\ Demo.statistics month' year' store
     = (store,
        Ok (mkStatistics (sumOver vrOf objs) (sumOver vtOf objs) (sumOver mobOf objs)
              (sumOver (fun b => vrOf b + vtOf b + mobOf b) objs)
              (Z.of_nat (length objs))
              (countWhere (inStatus Pending) objs)
              (countWhere (inStatus Calculated) objs)
              (countWhere (inStatus Approved) objs)
              (countWhere (inStatus Paid) objs))).
Proof.
  intros m docs objs vrOf vtOf mobOf out. subst out.
  split; [reflexivity|]. split.
  - unfold Routes.statistics, Routes.aggregate. fold m. fold docs.
    pose proof (count_by_status docs) as Hcount.
    destruct docs as [|d docs'] eqn:Hdocs.
    + simpl. repeat split.
    + rewrite <- Hdocs in *. cbn [head default snd totalVR totalVT totalMobilidade
        employeeCount pendingCount calculatedCount approvedCount paidCount].
      rewrite !sumStatus_count.
      rewrite (sumPath_stored _ vrOf), (sumPath_stored _ vtOf), (sumPath_stored _ mobOf)
        by (intros; reflexivity).
      rewrite (foldl_add_sumOver (fun _ => 1)), Z.add_0_l, sumOver_one.
      repeat split. exact Hcount.
  - unfold Demo.statistics. fold m. fold objs. f_equal. f_equal.
    unfold Demo.reduceSum, Demo.reduceTotal, Demo.countStatus.
    rewrite reduceTotal_sumOver, !foldl_add_sumOver, !Z.add_0_l.
    f_equal; try reflexivity; apply sumOver_ext; intros b; apply orZero_id.
Qed.

(** C8 fails as stated: with the calculated b1 and the cancelled c1 stored
    for 2024-01, both with a VR final amount of 550, the statistics count
    two documents and report totalVR 1100, in the demo server as well; the
    non-cancelled documents alone would give 1 and 550. *)
Lemma statistics_include_cancelled :
  let out := Routes.statistics "1" "2024" Fixtures.db_cancelled in
  let demo := Demo.statistics "1" "2024" Fixtures.demo_cancelled in
  paymentStatus <$> Fixtures.db_cancelled !! "c1" = Some Cancelled
  /\ match out.2 with
     | Ok stats => totalVR stats = 1100 /\ employeeCount stats = 2
                   /\ calculatedCount stats = 1
     | _ => False
     end
  /\ demo.2 = Ok (mkStatistics 1100 0 0 1100 2 0 1 0 0).
Proof. cbv zeta. repeat split; vm_compute; reflexivity. Qed.

(** ** Non-negative final amounts *)















(** * Further properties of the model and of the routes *)

(** ** Calculators and deductions *)

(** X1. Running a calculator again changes nothing: [calculateVR] and
    [calculateVT] are idempotent (return value and document), they commute,
    the pair of them is idempotent, and so is the demo server's calculation
    block. *)
Theorem calculators_idempotent (b : Benefit) :
  let both x := (Model.calculateVT (Model.calculateVR x).2).2 in
  Model.calculateVR (Model.calculateVR b).2 = Model.calculateVR b
  /\ Model.calculateVT (Model.calculateVT b).2 = Model.calculateVT b
  /\ both (both b) = both b
  /\ (Model.calculateVR (Model.calculateVT b).2).2 = both b
  /\ Demo.calculateAmounts (Demo.calculateAmounts b) = Demo.calculateAmounts b.
Proof.
  destruct b as [eid m [en dv bd sa td ta ds fa] [en' fx dv' td' ta' ds' fa'] mob st fp cb ub].
  unfold Model.calculateVR, Model.calculateVT, Demo.calculateAmounts; simpl.
  destruct en, en'; simpl; repeat split; reflexivity.
Qed.

(** X2. A deduction of a non-negative amount never leaves a final amount
    above the one a recalculation of the record gives without it; so on a
    record that has been calculated it never raises the stored final amount.
    For a disabled benefit the stored final amount stays as it is.  Against
    the stored amount of a record that was never calculated the final amount
    can rise: on the record created for an employee with 22 days at 25, which
    stores 0, a deduction of 100 leaves 450. *)
Theorem deduction_never_above_recalculated (d : Deduction) (b : Benefit) :
  0 <= amount d ->
  let calculated := (Model.calculateVT (Model.calculateVR b).2).2 in
  let created := BenefitRoutes.benefitFor "emp-1" "2024-01" Examples.clt "hr-1" in
  vr_finalAmount (valeRefeicao (Model.addDeduction "VR" d b))
  <= vr_finalAmount (valeRefeicao (Model.calculateVR b).2)
  /\ vt_finalAmount (valeTransporte (Model.addDeduction "VT" d b))
     <= vt_finalAmount (valeTransporte (Model.calculateVT b).2)
  /\ vr_finalAmount (valeRefeicao (Model.addDeduction "VR" d calculated))
     <= vr_finalAmount (valeRefeicao calculated)
  /\ vt_finalAmount (valeTransporte (Model.addDeduction "VT" d calculated))
     <= vt_finalAmount (valeTransporte calculated)
  /\ (if vr_enabled (valeRefeicao b) then True
      else vr_finalAmount (valeRefeicao (Model.addDeduction "VR" d b))
           = vr_finalAmount (valeRefeicao b))
  /\ (if vt_enabled (valeTransporte b) then True
      else vt_finalAmount (valeTransporte (Model.addDeduction "VT" d b))
           = vt_finalAmount (valeTransporte b))
  /\ vr_finalAmount (valeRefeicao created) = 0
  /\ vr_finalAmount (valeRefeicao
       (Model.addDeduction "VR" (Fixtures.deductionOf 100 "Absence") created)) = 450.
Proof.
  intros Hd calculated created. subst calculated created.
  destruct b as [eid m [en dv bd sa td ta ds fa] [en' fx dv' td' ta' ds' fa'] mob st fp cb ub].
  split; [|split; [|split; [|split; [|split; [|split; [|split]]]]]].
  1-6: destruct en, en'; cbn -[sumDeductions Z.mul Z.add Z.sub Z.max];
    rewrite ?sumDeductions_snoc; try exact I; try reflexivity; lia.
  - reflexivity.
  - vm_compute. reflexivity.
Qed.

Lemma deduction_never_above_recalculated_witness :
  vr_finalAmount (valeRefeicao
    (Model.addDeduction "VR" (Fixtures.deductionOf 100 "Absence") Fixtures.vr550))
  <= 550.
Proof.
  pose proof (deduction_never_above_recalculated (Fixtures.deductionOf 100 "Absence")
                Fixtures.vr550 ltac:(simpl; lia)) as (H1 & _).
  exact H1.
Defined.

(** X3. A VR deduction and a VT deduction can be added in either order:
    the record is the same afterwards, with the model's [addDeduction] and
    with the demo server's dispatch.  Two deductions of the same benefit are
    kept in the order in which they were added. *)
Theorem deductions_of_both_benefits_commute (d1 d2 : Deduction) (b : Benefit) :
  Model.addDeduction "VT" d2 (Model.addDeduction "VR" d1 b)
  = Model.addDeduction "VR" d1 (Model.addDeduction "VT" d2 b)
  /\ Demo.addDeduction "VT" d2 (Demo.addDeduction "VR" d1 b)
     = Demo.addDeduction "VR" d1 (Demo.addDeduction "VT" d2 b)
  /\ vr_deductions (valeRefeicao (Model.addDeduction "VT" d2 (Model.addDeduction "VR" d1 b)))
     = vr_deductions (valeRefeicao b) ++ [d1]
  /\ vt_deductions (valeTransporte (Model.addDeduction "VT" d2 (Model.addDeduction "VR" d1 b)))
     = vt_deductions (valeTransporte b) ++ [d2]
  /\ vr_deductions (valeRefeicao (Model.addDeduction "VR" d2 (Model.addDeduction "VR" d1 b)))
     = vr_deductions (valeRefeicao b) ++ [d1; d2]
  /\ vt_deductions (valeTransporte (Model.addDeduction "VT" d2 (Model.addDeduction "VT" d1 b)))
     = vt_deductions (valeTransporte b) ++ [d1; d2].
Proof.
  destruct b as [eid m [en dv bd sa td ta dl fa] [en' fx dv' td' ta' dl' fa'] mob st fp cb ub].
  split; [|split; [|split; [|split; [|split]]]].
  - destruct en, en'; reflexivity.
  - reflexivity.
  - destruct en, en'; reflexivity.
  - destruct en, en'; reflexivity.
  - destruct en, en'; cbn -[sumDeductions Z.mul Z.add Z.sub Z.max];
      rewrite <- app_assoc; reflexivity.
  - destruct en, en'; cbn -[sumDeductions Z.mul Z.add Z.sub Z.max];
      rewrite <- app_assoc; reflexivity.
Qed.

(** X4. On a calculated document the demo server's deduction dispatch and
    the model's [addDeduction] agree when the named benefit is enabled; when
    it is disabled the model leaves the stored final amount alone, while the
    demo server recomputes it from the stored total and the deductions. *)
Theorem demo_and_model_deduction (d : Deduction) (b : Benefit) :
  let calculated := (Model.calculateVT (Model.calculateVR b).2).2 in
  (if vr_enabled (valeRefeicao b)
   then Demo.addDeduction "VR" d calculated = Model.addDeduction "VR" d calculated
   else vr_finalAmount (valeRefeicao (Model.addDeduction "VR" d calculated))
        = vr_finalAmount (valeRefeicao b)
        /\ vr_finalAmount (valeRefeicao (Demo.addDeduction "VR" d calculated))
           = Z.max 0 (vr_totalAmount (valeRefeicao b)
                      - sumOver amount (vr_deductions (valeRefeicao b)) - amount d))
  /\ (if vt_enabled (valeTransporte b)
      then Demo.addDeduction "VT" d calculated = Model.addDeduction "VT" d calculated
      else vt_finalAmount (valeTransporte (Model.addDeduction "VT" d calculated))
           = vt_finalAmount (valeTransporte b)
           /\ vt_finalAmount (valeTransporte (Demo.addDeduction "VT" d calculated))
              = Z.max 0 (vt_totalAmount (valeTransporte b)
                         - sumOver amount (vt_deductions (valeTransporte b)) - amount d)).
Proof.
  destruct b as [eid m [en dv bd sa td ta dl fa] [en' fx dv' td' ta' dl' fa'] mob st fp cb ub].
  rewrite <- !sumDeductions_sumOver.
  destruct en, en'; cbn -[sumDeductions Z.mul Z.add Z.sub Z.max];
    rewrite ?sumDeductions_snoc; repeat split; try reflexivity; try (f_equal; lia).
Qed.

(** X5. The employee model's [calculateVR] gives 0 when VR is disabled or
    no schedule was uploaded for the month; with a schedule it agrees with
    the total the benefit model's [calculateVR] stores for the same days and
    daily value only when the employee includes Saturdays: otherwise the
    benefit model's total is higher by saturdays * dailyValue. *)
Theorem employee_and_record_VR (month' year' : string) (emp : Employee) (b : Benefit)
    (totalDays totalAmount' finalAmount : Z) :
  let vr := eb_valeRefeicao (emp_benefits emp) in
  let fromEmployee := EmployeeModel.calculateVR month' year' emp in
  match list_find (fun s => su_month s = monthStr year' month') (evr_scheduleUploads vr) with
  | Some (_, schedule) =>
      let record :=
        set_valeRefeicao
          (mkVR (evr_enabled vr) (evr_dailyValue vr) (su_businessDays schedule)
                (su_saturdays schedule) totalDays totalAmount' [] finalAmount) b in
      if evr_enabled vr
      then vr_totalAmount (valeRefeicao (Model.calculateVR record).2) - fromEmployee
           = (if evr_includeSaturdays vr then 0
              else su_saturdays schedule * evr_dailyValue vr)
           /\ (Model.calculateVR record).1
              = Z.max 0 (vr_totalAmount (valeRefeicao (Model.calculateVR record).2))
      else fromEmployee = 0 /\ (Model.calculateVR record).1 = 0
  | None => fromEmployee = 0
  end.
Proof.
  intros vr fromEmployee. subst fromEmployee. unfold EmployeeModel.calculateVR. fold vr.
  destruct (list_find _ (evr_scheduleUploads vr)) as [[i s]|].
  - unfold Model.calculateVR; simpl.
    destruct (evr_enabled vr); simpl; [|split; reflexivity].
    change (sumDeductions []) with 0. rewrite Z.sub_0_r.
    split; [|reflexivity]. destruct (evr_includeSaturdays vr); lia.
  - destruct (evr_enabled vr); reflexivity.
Qed.

(** ** Approval and submission *)

Lemma sendToFlash_lookup (ids : list string) (uid : string) (clock : nat -> Z)
    (db : Collection) (k : string) :
  (Routes.sendToFlash ids uid clock db).1 !! k
  = match list_find (fun x => x.1 = k) (find (Routes.sendable ids) db) with
    | Some (j, kb) => Some (Model.sendToFlash uid (clock j) kb.2)
    | None => db !! k
    end.
Proof.
  unfold Routes.sendToFlash.
  destruct (sendLoop_spec uid clock (find (Routes.sendable ids) db) 0 db 0 []
              (NoDup_find _ db)) as (Hk & _).
  destruct (Routes.sendLoop uid clock 0 _ (db, 0, [])) as [[db' total] data].
  simpl in *. apply Hk.
Qed.

Lemma find_nil (query : string * Benefit -> Prop) `{!forall kb, Decision (query kb)}
    (db : Collection) :
  (forall k b, db !! k = Some b -> ~ query (k, b)) -> find query db = [].
Proof.
  intros Hno. destruct (find query db) as [|[k b] l] eqn:Hfind; [reflexivity|].
  assert (Hin : (k, b) ∈ find query db) by (rewrite Hfind; left).
  apply elem_of_find in Hin as [Hk Hq]. destruct (Hno k b Hk Hq).
Qed.

Lemma sendToFlash_nothing (ids : list string) (uid : string) (clock : nat -> Z)
    (db : Collection) :
  find (Routes.sendable ids) db = [] ->
  Routes.sendToFlash ids uid clock db
  = (db, Ok (mkFlashBody "0 benefits sent to Flash"
               (mkFlashResponse true ("FLASH-" +:+ pretty (clock 0%nat)) 0 0 FlashProcessing)
               0 [])).
Proof. intros Hnil. unfold Routes.sendToFlash. rewrite Hnil. reflexivity. Qed.

(** X6. A document is submitted at most once: after POST /send-to-flash
    for a list of ids, a second request for any of those ids selects nothing,
    leaves the collection as it is and reports 0 benefits and a total of
    0. *)
Theorem sendToFlash_never_twice (ids ids2 : list string) (uid uid2 : string)
    (clock clock2 : nat -> Z) (db : Collection) :
  ids2 ⊆ ids ->
  Routes.sendToFlash ids2 uid2 clock2 (Routes.sendToFlash ids uid clock db).1
  = ((Routes.sendToFlash ids uid clock db).1,
     Ok (mkFlashBody "0 benefits sent to Flash"
           (mkFlashResponse true ("FLASH-" +:+ pretty (clock2 0%nat)) 0 0 FlashProcessing)
           0 [])).
Proof.
  intros Hsub. apply sendToFlash_nothing. apply find_nil.
  intros k b Hk (Hin & Hst & Hsent). simpl in *.
  rewrite sendToFlash_lookup in Hk.
  destruct (list_find _ _) as [[j kb]|] eqn:Hfind.
  - injection Hk as <-. discriminate Hsent.
  - eapply (list_find_find_None _ db k b Hfind Hk).
    split; [apply Hsub, Hin | split; assumption].
Qed.

Lemma sendToFlash_never_twice_witness :
  Routes.sendToFlash ["a1"] "hr-2" Fixtures.clock0
    (Routes.sendToFlash ["a1"; "a2"] "hr-1" Fixtures.clock0 Fixtures.db_approved).1
  = ((Routes.sendToFlash ["a1"; "a2"] "hr-1" Fixtures.clock0 Fixtures.db_approved).1,
     Ok (mkFlashBody "0 benefits sent to Flash"
           (mkFlashResponse true ("FLASH-" +:+ pretty (Fixtures.clock0 0%nat)) 0 0
                            FlashProcessing)
           0 [])).
Proof.
  apply (sendToFlash_never_twice ["a1"; "a2"] ["a1"] "hr-1" "hr-2" Fixtures.clock0
           Fixtures.clock0 Fixtures.db_approved).
  apply (bool_decide_unpack _). vm_compute. reflexivity.
Defined.

(** X7. Approval followed by submission has no guard on the earlier state:
    for the same id list, every stored, listed document that was never sent
    ends up submitted to Flash (as Approved), whatever its payment status was
    before; a listed document already sent is only approved, and unlisted
    documents are untouched. *)
Theorem approve_then_send (ids : list string) (uid uid2 : string) (clock : nat -> Z)
    (db : Collection) (k : string) :
  let out := Routes.sendToFlash ids uid2 clock (Routes.approve ids uid db).1 in
  match db !! k with
  | Some b =>
      if decide (k ∈ ids) then
        if sent (flashPayment b)
        then out.1 !! k = Some (Routes.approveOne uid b)
        else exists j, out.1 !! k
                       = Some (Model.sendToFlash uid2 (clock j) (Routes.approveOne uid b))
      else out.1 !! k = Some b
  | None => out.1 !! k = None
  end.
Proof.
  intros out. subst out. rewrite sendToFlash_lookup.
  set (db1 := (Routes.approve ids uid db).1).
  assert (Hdb1 : db1 !! k
                 = if decide (k ∈ ids) then Routes.approveOne uid <$> db !! k else db !! k)
    by apply approve_lookup.
  destruct (list_find _ (find _ db1)) as [[j kb]|] eqn:Hfind.
  - apply list_find_find_Some in Hfind as (<- & Hb1 & Hin & Hst & Hsent).
    rewrite Hdb1 in Hb1. rewrite decide_True in Hb1 by exact Hin.
    destruct (db !! kb.1) as [b|]; [|discriminate]. simpl in Hb1. injection Hb1 as Hb1.
    destruct (decide (kb.1 ∈ ids)) as [_|Hn]; [|contradiction]. rewrite <- Hb1 in Hsent. simpl in Hsent.
    rewrite Hsent. exists j. rewrite Hb1. reflexivity.
  - rewrite Hdb1. destruct (db !! k) as [b|] eqn:Hb.
    + destruct (decide (k ∈ ids)) as [Hin|Hout]; [|reflexivity]. simpl.
      destruct (sent (flashPayment b)) eqn:Hsent; [reflexivity|].
      exfalso. eapply (list_find_find_None _ db1 k (Routes.approveOne uid b) Hfind).
      * rewrite Hdb1. try rewrite Hb. destruct (decide (k ∈ ids)); [|contradiction]. try rewrite Hb. reflexivity.
      * split; [exact Hin|]. split; [reflexivity | exact Hsent].
    + destruct (decide (k ∈ ids)); reflexivity.
Qed.

(** X8. Approving in batches is the same as approving at once: approving
    ids1 and then ids2 gives the collection that approving ids1 ++ ids2
    gives, approving the same list twice changes nothing more, and the order
    of two batches does not matter. *)
Theorem approve_batches (ids1 ids2 : list string) (uid : string) (db : Collection) :
  (Routes.approve ids2 uid (Routes.approve ids1 uid db).1).1
  = (Routes.approve (ids1 ++ ids2) uid db).1
  /\ (Routes.approve ids1 uid (Routes.approve ids1 uid db).1).1
     = (Routes.approve ids1 uid db).1
  /\ (Routes.approve ids2 uid (Routes.approve ids1 uid db).1).1
     = (Routes.approve ids1 uid (Routes.approve ids2 uid db).1).1.
Proof.
  split; [|split]; apply map_eq; intros k; rewrite !approve_lookup;
    try rewrite (approve_lookup ids1 uid db k); try rewrite (approve_lookup ids2 uid db k);
    repeat match goal with |- context [decide (k ∈ ?l)] => destruct (decide (k ∈ l)) end;
    try rewrite elem_of_app in *; try tauto;
    destruct (db !! k); reflexivity.
Qed.

Lemma filter_ext_in {A} (P Q : A -> Prop) `{!forall x, Decision (P x)}
    `{!forall x, Decision (Q x)} (l : list A) :
  (forall x, x ∈ l -> P x <-> Q x) -> filter P l = filter Q l.
Proof.
  induction l as [|x l IH]; intros Hpq; [reflexivity|].
  rewrite !filter_cons.
  assert (Hx : P x <-> Q x) by (apply Hpq; left).
  rewrite IH by (intros y Hy; apply Hpq; right; exact Hy).
  destruct (decide (P x)), (decide (Q x)); tauto.
Qed.

(** X9. Submitting the ids that [findPendingPayments] returns submits
    exactly those documents (employeeCount and totalAmount are theirs) and
    leaves no pending payment behind: [findPendingPayments] and
    [getTotalForFlash] are empty afterwards.  Before, the employeeCount of
    [getTotalForFlash] is the number of pending documents of the month. *)
Theorem pending_payments_are_sent_once (uid : string) (clock : nat -> Z)
    (db : Collection) (month' year' : string) :
  let pendingDocs := Statics.findPendingPayments db in
  let out := Routes.sendToFlash pendingDocs.*1 uid clock db in
  Statics.findPendingPayments out.1 = []
  /\ match out.2 with
     | Ok body =>
         fr_employeeCount (fb_flashResponse body) = length pendingDocs
         /\ fb_totalAmount body = sumOver Model.totalBenefitAmount pendingDocs.*2
     | _ => False
     end
  /\ Forall (fun g => Statics.ft_employeeCount g
                      = Z.of_nat (length (filter (fun kb : string * Benefit =>
                                                    month kb.2 = monthStr year' month')
                                                 pendingDocs)))
            (Statics.getTotalForFlash month' year' db)
  /\ Statics.getTotalForFlash month' year' out.1 = [].
Proof.
  intros pendingDocs out.
  assert (Hsel : find (Routes.sendable pendingDocs.*1) db = pendingDocs).
  { unfold pendingDocs, Statics.findPendingPayments, find. apply filter_ext_in.
    intros [k b] Hin. apply elem_of_map_to_list in Hin.
    unfold Routes.sendable, Statics.pending; simpl. split; [tauto|].
    intros Hp. split; [|exact Hp].
    apply list_elem_of_fmap. exists (k, b). split; [reflexivity|].
    apply elem_of_find. auto. }
  assert (Hnone : forall k b, out.1 !! k = Some b -> ~ Statics.pending (k, b)).
  { intros k b Hk [Hst Hsent]. simpl in *. subst out.
    rewrite sendToFlash_lookup, Hsel in Hk.
    destruct (list_find _ pendingDocs) as [[j kb]|] eqn:Hfind.
    - injection Hk as <-. discriminate Hsent.
    - apply (list_find_find_None Statics.pending db k b Hfind Hk). split; assumption. }
  split; [|split; [|split]].
  - apply find_nil. exact Hnone.
  - subst out. unfold Routes.sendToFlash. rewrite Hsel.
    destruct (sendLoop_spec uid clock pendingDocs 0 db 0 [] (NoDup_find _ db))
      as (_ & Ht & _).
    destruct (Routes.sendLoop uid clock 0 pendingDocs (db, 0, [])) as [[db' total] data].
    simpl in *. split; [reflexivity | lia].
  - unfold Statics.getTotalForFlash.
    assert (Hlen : forall l : list (string * Benefit),
               foldl (fun acc (_ : Benefit) => acc + 1) 0 l.*2 = Z.of_nat (length l)).
    { intros l. rewrite (foldl_add_sumOver (fun _ => 1)), sumOver_one, length_fmap. lia. }
    assert (Heq : find (fun kb : string * Benefit =>
                          month kb.2 = monthStr year' month' /\ Statics.pending kb) db
                  = filter (fun kb : string * Benefit => month kb.2 = monthStr year' month')
                           pendingDocs).
    { unfold pendingDocs, Statics.findPendingPayments, find.
      rewrite list_filter_filter. reflexivity. }
    rewrite Heq, <- Hlen.
    destruct ((filter _ pendingDocs).*2) as [|d docs]; constructor; [|constructor].
    reflexivity.
  - unfold Statics.getTotalForFlash. rewrite find_nil; [reflexivity|].
    intros k b Hk [_ Hp]. exact (Hnone k b Hk Hp).
Qed.

(** X10. The aggregation pipelines sum the virtual [totalBenefitAmount],
    which is no stored field: the totalAmount of the statistics route and
    of [getTotalForFlash] is 0 for every collection. *)
Theorem aggregated_totalAmount_is_zero (month' year' : string) (db : Collection) :
  match (Routes.statistics month' year' db).2 with
  | Ok stats => totalAmount stats = 0
  | _ => False
  end
  /\ Forall (fun g => Statics.ft_totalAmount g = 0) (Statics.getTotalForFlash month' year' db).
Proof.
  split.
  - unfold Routes.statistics, Routes.aggregate. simpl.
    destruct ((find _ db).*2) as [|d docs]; [reflexivity|].
    simpl head. simpl default. unfold totalAmount. apply aggregate_totalBenefitAmount.
  - unfold Statics.getTotalForFlash.
    destruct ((find _ db).*2) as [|d docs]; constructor; [|constructor].
    simpl. apply aggregate_totalBenefitAmount.
Qed.

(** ** What no request does *)

Lemma findOne_Some (query : string * Benefit -> Prop) `{!forall kb, Decision (query kb)}
    (db : Collection) (k : string) (b : Benefit) :
  findOne query db = Some (k, b) -> db !! k = Some b /\ query (k, b).
Proof.
  unfold findOne. intros Hh. apply (elem_of_find query db k b).
  destruct (find query db) as [|x l]; [discriminate|].
  simpl in Hh. injection Hh as ->. left.
Qed.

Section Preservation.
Variable P : Benefit -> Prop.
Hypothesis P_vr : forall v b, P b -> P (set_valeRefeicao v b).
Hypothesis P_vt : forall v b, P b -> P (set_valeTransporte v b).
Hypothesis P_mob : forall v b, P b -> P (set_mobilidade v b).
Hypothesis P_updatedBy : forall u b, P b -> P (set_updatedBy u b).
Hypothesis P_calculated : forall b, P b -> P (set_paymentStatus Calculated b).
Hypothesis P_approved : forall b, P b -> P (set_paymentStatus Approved b).
Hypothesis P_sent : forall uid t b, P b -> P (Model.sendToFlash uid t b).
Hypothesis P_new : forall e m uid, P (newBenefit e m uid).
Hypothesis P_created : forall e m emp uid, P (BenefitRoutes.benefitFor e m emp uid).

Lemma calculateVR_preserves (b : Benefit) : P b -> P (Model.calculateVR b).2.
Proof.
  intros Hb. unfold Model.calculateVR.
  destruct (vr_enabled (valeRefeicao b)); simpl; [apply P_vr|]; exact Hb.
Qed.

Lemma calculateVT_preserves (b : Benefit) : P b -> P (Model.calculateVT b).2.
Proof.
  intros Hb. unfold Model.calculateVT.
  destruct (vt_enabled (valeTransporte b)); simpl; [apply P_vt|]; exact Hb.
Qed.

Lemma applyBody_preserves (vr : option VRBody) (vt : option VTBody) (mob : option MobBody)
    (b : Benefit) : P b -> P (applyBody vr vt mob b).
Proof.
  intros Hb. unfold applyBody.
  destruct vr, vt, mob; repeat first [apply P_mob | apply P_vt | apply P_vr]; exact Hb.
Qed.

Lemma addDeduction_preserves (bt : string) (d : Deduction) (b : Benefit) :
  P b -> P (Model.addDeduction bt d b).
Proof.
  intros Hb. unfold Model.addDeduction.
  apply calculateVT_preserves, calculateVR_preserves.
  destruct (String.eqb bt "VR"); [apply P_vr, Hb|].
  destruct (String.eqb bt "VT"); [apply P_vt, Hb | exact Hb].
Qed.

Lemma handleAny_preserves (employees : Employees) (r : AnyRequest) (db : Collection) :
  map_Forall (fun _ b => P b) db ->
  map_Forall (fun _ b => P b) (handleAny employees r db).
Proof.
  intros Hdb.
  destruct r as [[e m y vr vt mob uid newId | id bt d a rs ty uid now
                  | ids uid | ids uid clock]
                | e m y uid newId | e m y bd sa file uid]; cbn [handleAny handle].
  - unfold Routes.calculate.
    set (q := fun kb : string * Benefit => employeeId kb.2 = e /\ month kb.2 = monthStr y m).
    assert (Htarget : P (match findOne q db with
                         | Some kb => kb
                         | None => (newId, newBenefit e (monthStr y m) uid)
                         end).2).
    { destruct (findOne q db) as [[k b]|] eqn:Hf; [|apply P_new].
      apply findOne_Some in Hf as [Hk _]. exact (Hdb k b Hk). }
    destruct (match findOne q db with Some kb => kb | None => _ end) as [k b].
    destruct (Routes.spreadInvalidates vr vt); [exact Hdb|].
    simpl in *. apply map_Forall_insert_2; [|exact Hdb].
    apply P_updatedBy, P_calculated, calculateVT_preserves, calculateVR_preserves,
      applyBody_preserves, Htarget.
  - unfold Routes.deduction, findById.
    destruct (db !! id) as [b|] eqn:Hb; simpl; [|exact Hdb].
    assert (Hsaved : map_Forall (fun _ b => P b)
              (save id (set_updatedBy uid
                          (Model.addDeduction bt (mkDeduction d a rs (default Absence ty) uid now) b))
                    db)).
    { apply map_Forall_insert_2; [|exact Hdb].
      apply P_updatedBy, addDeduction_preserves. exact (Hdb id b Hb). }
    destruct (Routes.pushed _ _) as [d'|]; [|exact Hsaved].
    destruct (Routes.validDeduction d'); [exact Hsaved | exact Hdb].
  - intros k b. rewrite approve_lookup.
    destruct (decide (k ∈ ids)); [|apply Hdb].
    destruct (db !! k) as [b0|] eqn:Hb0; simpl; [|discriminate].
    intros [= <-]. apply P_updatedBy, P_approved. exact (Hdb k b0 Hb0).
  - intros k b. rewrite sendToFlash_lookup.
    destruct (list_find _ _) as [[j kb]|] eqn:Hfind; [|apply Hdb].
    apply list_find_find_Some in Hfind as (<- & Hb & _).
    intros [= <-]. apply P_sent. exact (Hdb _ _ Hb).
  - unfold BenefitRoutes.employeeBenefit.
    destruct (findOne _ db) as [[k b]|]; [exact Hdb|].
    destruct (employees !! e) as [emp|]; [|exact Hdb].
    simpl. apply map_Forall_insert_2; [apply P_created | exact Hdb].
  - unfold BenefitRoutes.uploadSchedule.
    destruct file; simpl; [|exact Hdb].
    destruct (findOne _ db) as [[k b]|] eqn:Hf; [|exact Hdb].
    apply findOne_Some in Hf as [Hk _].
    simpl. apply map_Forall_insert_2; [|exact Hdb].
    apply P_updatedBy, calculateVR_preserves, P_vr. exact (Hdb k b Hk).
Qed.

Lemma runAny_preserves (employees : Employees) (rs : list AnyRequest) (db : Collection) :
  map_Forall (fun _ b => P b) db ->
  map_Forall (fun _ b => P b) (runAny employees rs db).
Proof.
  revert db. induction rs as [|r rs IH]; intros db Hdb; [exact Hdb|].
  simpl. apply IH, handleAny_preserves, Hdb.
Qed.
End Preservation.

(** X11. No request ever stores a Flash reference: if no stored document
    has one, none has one after any sequence of calculate, deduction,
    approve, send-to-flash, get-or-create and upload-schedule requests, and
    GET /flash-status/:reference then answers 'Flash reference not found'
    for every reference, the one POST /send-to-flash returned included. *)
Theorem flashStatus_never_found (employees : Employees) (rs : list AnyRequest)
    (db : Collection) (reference : string) :
  map_Forall (fun _ b => flashReference (flashPayment b) = None) db ->
  map_Forall (fun _ b => flashReference (flashPayment b) = None) (runAny employees rs db)
  /\ BenefitRoutes.flashStatus' reference (runAny employees rs db)
     = NotFound "Flash reference not found".
Proof.
  intros Hdb.
  assert (Hrun : map_Forall (fun _ b => flashReference (flashPayment b) = None)
                            (runAny employees rs db)).
  { apply (runAny_preserves (fun b => flashReference (flashPayment b) = None));
      try (intros; assumption); intros; reflexivity. }
  split; [exact Hrun|].
  unfold BenefitRoutes.flashStatus'. rewrite find_nil; [reflexivity|].
  intros k b Hk Hq. simpl in Hq. pose proof (Hrun k b Hk) as Hnone. simpl in Hnone.
  congruence.
Qed.

Lemma flashStatus_never_found_witness :
  BenefitRoutes.flashStatus' "FLASH-1706000000001"
    (runAny Examples.staff Examples.session Fixtures.db_vr550)
  = NotFound "Flash reference not found".
Proof.
  apply (flashStatus_never_found Examples.staff Examples.session Fixtures.db_vr550
           "FLASH-1706000000001").
  apply (bool_decide_unpack _). vm_compute. reflexivity.
Defined.

(** X12. No request sets a payment status of Paid or Cancelled, or a Flash
    status other than Pending: a collection free of them stays free of them
    under every sequence of requests. *)
Theorem paid_and_cancelled_unreachable (employees : Employees) (rs : list AnyRequest)
    (db : Collection) :
  map_Forall (fun _ b => paymentStatus b <> Paid /\ paymentStatus b <> Cancelled
                         /\ flashStatus (flashPayment b) = FlashPending) db ->
  map_Forall (fun _ b => paymentStatus b <> Paid /\ paymentStatus b <> Cancelled
                         /\ flashStatus (flashPayment b) = FlashPending)
             (runAny employees rs db).
Proof.
  apply (runAny_preserves
           (fun b => paymentStatus b <> Paid /\ paymentStatus b <> Cancelled
                     /\ flashStatus (flashPayment b) = FlashPending));
    try (intros; assumption); intros; simpl; repeat split; try discriminate; tauto.
Qed.

Lemma paid_and_cancelled_unreachable_witness :
  map_Forall (fun _ b => paymentStatus b <> Paid /\ paymentStatus b <> Cancelled
                         /\ flashStatus (flashPayment b) = FlashPending)
             (runAny Examples.staff Examples.session Fixtures.db_vr550).
Proof.
  apply (paid_and_cancelled_unreachable Examples.staff Examples.session Fixtures.db_vr550).
  apply (bool_decide_unpack _). vm_compute. reflexivity.
Defined.

(** ** Creating a record and uploading a schedule *)

Lemma findOne_None (query : string * Benefit -> Prop) `{!forall kb, Decision (query kb)}
    (db : Collection) :
  findOne query db = None -> find query db = [].
Proof. unfold findOne. destruct (find query db); [reflexivity | discriminate]. Qed.

Lemma findOne_insert_new (query : string * Benefit -> Prop)
    `{!forall kb, Decision (query kb)} (db : Collection) (k : string) (b : Benefit) :
  find query db = [] -> query (k, b) -> findOne query (<[k := b]> db) = Some (k, b).
Proof.
  intros Hnil Hq. unfold findOne.
  assert (Hall : forall x, x ∈ find query (<[k := b]> db) -> x = (k, b)).
  { intros [k' b'] Hin. apply elem_of_find in Hin as [Hk' Hq'].
    destruct (decide (k = k')) as [<-|Hne].
    - rewrite lookup_insert_eq in Hk'. congruence.
    - rewrite lookup_insert_ne in Hk' by exact Hne.
      assert (Hin : (k', b') ∈ find query db) by (apply elem_of_find; auto).
      rewrite Hnil in Hin. inversion Hin. }
  assert (Hin : (k, b) ∈ find query (<[k := b]> db)).
  { apply elem_of_find. split; [apply lookup_insert_eq | exact Hq]. }
  destruct (find query (<[k := b]> db)) as [|x l]; [inversion Hin|].
  simpl. f_equal. apply Hall. left.
Qed.

(** X13. Repeating GET /employee/:employeeId/:month/:year, by whomever and
    whatever id the driver would give, leaves the collection as the first
    request left it, and from the second request on the answer no longer
    changes.  An answer carries a stored document of that employee and
    month; the repeated answer carries the same document with the employee
    populated.  When the record existed already the first answer is that
    one too; when the first request created it, the first answer carries
    the bare reference instead.  'Employee not found' means no such employee
    and an unchanged collection, and is repeated as it is. *)
Theorem employeeBenefit_repeated (e m y uid newId uid2 newId2 uid3 newId3 : string)
    (employees : Employees) (db : Collection) :
  let first := BenefitRoutes.employeeBenefit e m y uid newId employees db in
  let second := BenefitRoutes.employeeBenefit e m y uid2 newId2 employees first.1 in
  let third := BenefitRoutes.employeeBenefit e m y uid3 newId3 employees second.1 in
  second.1 = first.1
  /\ third = second
  /\ match first.2 with
     | Ok (b, ref) =>
         employeeId b = e /\ month b = monthStr y m
         /\ (exists k, first.1 !! k = Some b)
         /\ second.2 = Ok (b, Populated (emp_benefits <$> employees !! e))
         /\ match findOne (fun kb => employeeId kb.2 = e /\ month kb.2 = monthStr y m) db with
            | Some _ => first.1 = db /\ second = first
            | None => first.1 = <[newId := b]> db /\ ref = Reference e
            end
     | NotFound _ => first.1 = db /\ employees !! e = None /\ second = first
     | ServerError _ => False
     end.
Proof.
  intros first second third. subst third second first.
  unfold BenefitRoutes.employeeBenefit, BenefitRoutes.populate.
  set (q := fun kb : string * Benefit => employeeId kb.2 = e /\ month kb.2 = monthStr y m).
  destruct (findOne q db) as [[k b]|] eqn:Hf.
  - simpl. rewrite Hf. simpl. rewrite Hf.
    apply findOne_Some in Hf as [Hk [He Hm]]. simpl in *.
    rewrite He. repeat split; eauto.
  - destruct (employees !! e) as [emp|] eqn:Hemp; simpl.
    + rewrite (findOne_insert_new q db newId (BenefitRoutes.benefitFor e (monthStr y m) emp uid));
        [|apply findOne_None, Hf | split; reflexivity].
      simpl.
      rewrite (findOne_insert_new q db newId (BenefitRoutes.benefitFor e (monthStr y m) emp uid));
        [|apply findOne_None, Hf | split; reflexivity].
      simpl. rewrite Hemp. repeat split. exists newId. apply lookup_insert_eq.
    + rewrite Hf. rewrite ?Hemp. simpl. rewrite Hf. rewrite ?Hemp. auto.
Qed.

(** X14. A record created for an employee and then calculated with an
    empty body is the created document updated in place: VR is monthlyDays *
    dailyValue and VT the fixed amount (each clamped at 0, and 0 when
    disabled), the total adds the mobility value when enabled, and the
    status is Calculated.  For a CLT employee the VT amount is the employee
    model's [calculateVT], clamped. *)
Theorem created_then_calculated (e m y uid newId uid2 newId2 : string)
    (employees : Employees) (db : Collection) (emp : Employee) :
  employees !! e = Some emp ->
  findOne (fun kb => employeeId kb.2 = e /\ month kb.2 = monthStr y m) db = None ->
  let vr := eb_valeRefeicao (emp_benefits emp) in
  let vt := eb_valeTransporte (emp_benefits emp) in
  let mob := eb_mobilidade (emp_benefits emp) in
  let created := BenefitRoutes.employeeBenefit e m y uid newId employees db in
  let out := Routes.calculate e m y None None None uid2 newId2 created.1 in
  let vrFinal := if evr_enabled vr then Z.max 0 (evr_monthlyDays vr * evr_dailyValue vr) else 0 in
  let vtFinal := if evt_enabled vt then Z.max 0 (evt_fixedAmount vt) else 0 in
  exists b,
    out.2 = Ok (mkBenefitBody "Benefit calculated successfully" b)
    /\ out.1 = <[newId := b]> created.1
    /\ paymentStatus b = Calculated
    /\ vr_finalAmount (valeRefeicao b) = vrFinal
    /\ vt_finalAmount (valeTransporte b) = vtFinal
    /\ Model.totalBenefitAmount b
       = vrFinal + vtFinal + (if mob_enabled mob then mob_monthlyValue mob else 0)
    /\ (if decide (emp_employmentType emp = CLT)
        then vtFinal = Z.max 0 (EmployeeModel.calculateVT emp)
        else True).
Proof.
  intros Hemp Hnone vr vt mob created out vrFinal vtFinal.
  subst out created. unfold BenefitRoutes.employeeBenefit. rewrite Hnone, Hemp. simpl.
  unfold Routes.calculate, Routes.spreadInvalidates.
  rewrite (findOne_insert_new _ db newId (BenefitRoutes.benefitFor e (monthStr y m) emp uid));
    [|apply findOne_None, Hnone | split; reflexivity].
  eexists. split; [reflexivity|]. split; [reflexivity|].
  subst vrFinal vtFinal vr vt mob.
  destruct emp as [ty [[vten vtdv vtmd vtfx] [vren vrdv vrmd vrsat vrsch] [men mv] hi di]].
  unfold EmployeeModel.calculateVT, Model.totalBenefitAmount, Model.calculateVR,
    Model.calculateVT, BenefitRoutes.benefitFor; simpl.
  change (sumDeductions []) with 0. rewrite ?Z.add_0_r, ?Z.sub_0_r.
  destruct vren, vten, men; simpl; rewrite ?Z.add_0_r, ?Z.sub_0_r;
    repeat split; try lia; destruct (decide (ty = CLT)); auto.
Qed.

Lemma created_then_calculated_witness :
  exists b,
    (Routes.calculate "emp-1" "1" "2024" None None None "hr-2" "b2"
       (BenefitRoutes.employeeBenefit "emp-1" "1" "2024" "hr-1" "b1" Examples.staff ∅).1).2
    = Ok (mkBenefitBody "Benefit calculated successfully" b)
    /\ vr_finalAmount (valeRefeicao b) = 550
    /\ vt_finalAmount (valeTransporte b) = 300
    /\ Model.totalBenefitAmount b = 930.
Proof.
  destruct (created_then_calculated "emp-1" "1" "2024" "hr-1" "b1" "hr-2" "b2"
              Examples.staff ∅ Examples.clt ltac:(reflexivity) ltac:(reflexivity))
    as (b & H1 & _ & _ & H4 & H5 & H6 & _).
  exists b. repeat split; assumption.
Defined.

(** X15. POST /upload-schedule answers 400 without a file and 404 without
    a record, changing nothing.  Otherwise it stores the parsed business
    days, with 22 in place of 0 or of an unreadable value (so never 0), and
    the parsed Saturdays (0 when unreadable), re-runs [calculateVR] only, and
    leaves the VR deductions, the VT sub-document, the mobility, the payment
    status and the Flash data as they were. *)
Theorem uploadSchedule_effect (e m y : string) (bd sa : option Z) (file : bool)
    (uid : string) (db : Collection) :
  let out := BenefitRoutes.uploadSchedule e m y bd sa file uid db in
  match (if file
         then findOne (fun kb => employeeId kb.2 = e /\ month kb.2 = monthStr y m) db
         else None) with
  | Some (id, b) =>
      exists b',
        out = (<[id := b']> db,
               Answered (Ok (mkBenefitBody "Schedule uploaded successfully" b')))
        /\ vr_businessDays (valeRefeicao b') = (match bd with Some n => if decide (n = 0) then 22 else n | None => 22 end)
        /\ vr_businessDays (valeRefeicao b') <> 0
        /\ vr_saturdays (valeRefeicao b') = default 0 sa
        /\ (if vr_enabled (valeRefeicao b)
            then vr_totalAmount (valeRefeicao b')
                 = (vr_businessDays (valeRefeicao b') + vr_saturdays (valeRefeicao b'))
                   * vr_dailyValue (valeRefeicao b)
                 /\ vr_finalAmount (valeRefeicao b')
                    = Z.max 0 (vr_totalAmount (valeRefeicao b')
                               - sumOver amount (vr_deductions (valeRefeicao b)))
            else vr_totalAmount (valeRefeicao b') = vr_totalAmount (valeRefeicao b)
                 /\ vr_finalAmount (valeRefeicao b') = vr_finalAmount (valeRefeicao b))
        /\ vr_deductions (valeRefeicao b') = vr_deductions (valeRefeicao b)
        /\ valeTransporte b' = valeTransporte b
        /\ mobilidade b' = mobilidade b
        /\ paymentStatus b' = paymentStatus b
        /\ flashPayment b' = flashPayment b
  | None => out.1 = db
  end.
Proof.
  intros out. subst out. unfold BenefitRoutes.uploadSchedule.
  destruct file; simpl; [|reflexivity].
  destruct (findOne _ db) as [[id b]|]; [|reflexivity].
  eexists. split; [reflexivity|].
  destruct b as [eid mo [en dv bd0 sa0 td ta ds fa] vt mob st fp cb ub].
  unfold Model.calculateVR; simpl. rewrite sumDeductions_sumOver.
  assert (Hbd : BenefitRoutes.parsedOr 22 bd <> 0).
  { unfold BenefitRoutes.parsedOr. destruct bd as [n|]; [|discriminate].
    destruct (decide (n = 0)); [discriminate | assumption]. }
  assert (Hsa : BenefitRoutes.parsedOr 0 sa = default 0 sa).
  { unfold BenefitRoutes.parsedOr. destruct sa as [n|]; [|reflexivity].
    destruct (decide (n = 0)); simpl; congruence. }
  destruct en; simpl; rewrite ?Hsa; repeat split; auto.
Qed.

Lemma length_append (s1 s2 : string) :
  String.length (s1 +:+ s2) = (String.length s1 + String.length s2)%nat.
Proof. induction s1 as [|c s1 IH]; simpl; [reflexivity | rewrite IH; reflexivity]. Qed.

Lemma length_concat_replicate (n : nat) :
  String.length (String.concat "" (replicate n "0")) = n.
Proof.
  destruct n as [|n]; [reflexivity|].
  induction n as [|n IH]; [reflexivity|].
  change (String.concat "" (replicate (S (S n)) "0"))
    with ("0" +:+ "" +:+ String.concat "" (replicate (S n) "0")).
  rewrite !length_append, IH. reflexivity.
Qed.

(** X16. The month key: padding to two characters is idempotent, so a
    month written "1" and "01" addresses the same record; the padded month
    has max(n, length) characters; a month of two or more characters is
    taken as it is, and an empty month becomes "00". *)
Theorem month_padding (year' month' : string) (n : nat) :
  String.length (padStart n "0" month') = (n `max` String.length month')%nat
  /\ padStart 2 "0" (padStart 2 "0" month') = padStart 2 "0" month'
  /\ monthStr year' (padStart 2 "0" month') = monthStr year' month'
  /\ (if decide (2 <= String.length month')%nat
      then monthStr year' month' = year' +:+ "-" +:+ month'
      else if decide (String.length month' = 1)%nat
      then monthStr year' month' = year' +:+ "-0" +:+ month'
      else monthStr year' month' = year' +:+ "-00").
Proof.
  assert (Hlen : forall k s, String.length (padStart k "0" s)
                             = (k `max` String.length s)%nat).
  { intros k s. unfold padStart. rewrite length_append, length_concat_replicate. lia. }
  assert (Hid : forall s, (2 <= String.length s)%nat -> padStart 2 "0" s = s).
  { intros s Hs. unfold padStart.
    replace (2 - String.length s)%nat with 0%nat by lia. reflexivity. }
  assert (Hidem : padStart 2 "0" (padStart 2 "0" month') = padStart 2 "0" month').
  { apply Hid. rewrite Hlen. lia. }
  split; [apply Hlen|]. split; [exact Hidem|]. split.
  - unfold monthStr. rewrite Hidem. reflexivity.
  - unfold monthStr. destruct (decide (2 <= String.length month')%nat) as [H2|H2].
    + rewrite Hid by exact H2. reflexivity.
    + destruct (decide (String.length month' = 1)%nat) as [H1|H1].
      * destruct month' as [|c [|c' s]]; simpl in H1; try lia. reflexivity.
      * destruct month' as [|c [|c' s]]; simpl in H1, H2; try lia. reflexivity.
Qed.

(** ** The demo server: creation, paging and submission *)

(** X17. GET /api/benefits/employee/... of the demo server is idempotent.
    The object it creates has VR and VT enabled whatever the employee's
    configuration says, and a daily value, business days and fixed amount
    that are never 0 (25, 22 and 300 stand in for 0 or a missing value); it
    is Pending with nothing calculated, and its calculation gives
    businessDays * dailyValue and the fixed amount, clamped at 0. *)
Theorem demo_created_benefit (e m y uid uid2 : string) (now now2 : Z)
    (employees : list DemoEmployee) (store : DemoStore) :
  let out := DemoRoutes.employeeBenefit e m y uid now employees store in
  let again := DemoRoutes.employeeBenefit e m y uid2 now2 employees out.1 in
  again = (out.1, out.2)
  /\ match list_find (fun kb : string * Benefit =>
                        employeeId kb.2 = e /\ month kb.2 = monthStr y m) store,
           list_find (fun emp => de_id emp = e) employees with
     | Some (_, (_, b)), _ => out.1 = store
     | None, None => out = (store, NotFound "Employee not found")
     | None, Some (_, emp) =>
         exists b,
           out.1 = store ++ [("benefit-" +:+ pretty now, b)]
           /\ vr_enabled (valeRefeicao b) = true
           /\ vt_enabled (valeTransporte b) = true
           /\ vr_dailyValue (valeRefeicao b) <> 0
           /\ vr_businessDays (valeRefeicao b) <> 0
           /\ vt_fixedAmount (valeTransporte b) <> 0
           /\ paymentStatus b = Pending
           /\ Model.totalBenefitAmount b
              = (if mob_enabled (mobilidade b) then mob_monthlyValue (mobilidade b) else 0)
           /\ vr_finalAmount (valeRefeicao (Demo.calculateAmounts b))
              = Z.max 0 (vr_businessDays (valeRefeicao b) * vr_dailyValue (valeRefeicao b))
           /\ vt_finalAmount (valeTransporte (Demo.calculateAmounts b))
              = Z.max 0 (vt_fixedAmount (valeTransporte b))
     end.
Proof.
  intros out again. subst again out. unfold DemoRoutes.employeeBenefit.
  set (q := fun kb : string * Benefit => employeeId kb.2 = e /\ month kb.2 = monthStr y m).
  destruct (list_find q store) as [[i [k b]]|] eqn:Hf.
  - simpl. rewrite Hf. split; reflexivity.
  - destruct (list_find (fun emp => de_id emp = e) employees) as [[j emp]|] eqn:He; simpl.
    + split.
      * rewrite (list_find_app_r _ _ _ Hf). simpl.
        rewrite decide_True by (split; reflexivity). reflexivity.
      * eexists. split; [reflexivity|].
        unfold DemoRoutes.benefitFor, Model.totalBenefitAmount, Demo.calculateAmounts; simpl.
        assert (Hnum : forall x d, d <> 0 -> DemoRoutes.orNum x d <> 0).
        { intros x d Hd. unfold DemoRoutes.orNum. destruct x as [n|]; [|exact Hd].
          destruct (decide (n = 0)); assumption. }
        assert (Hb : forall x, DemoRoutes.orBool x true = true).
        { intros [[|]|]; reflexivity. }
        rewrite !Hb. simpl. change (sumDeductions []) with 0.
        rewrite ?Z.add_0_r, ?Z.sub_0_r.
        repeat split; try (apply Hnum; discriminate);
          try (destruct (DemoRoutes.orBool _ false); lia).
    + rewrite Hf. split; reflexivity.
Qed.

Lemma jsSlice_page {A} (s n : Z) (l : list A) :
  0 <= s -> 0 <= n ->
  jsSlice s (s + n) l = take (Z.to_nat n) (drop (Z.to_nat s) l).
Proof.
  intros Hs Hn. unfold jsSlice.
  rewrite !decide_False by lia.
  destruct (decide (s <= Z.of_nat (length l))) as [Hle|Hgt].
  - rewrite (Z.min_l s) by exact Hle.
    destruct (decide (s + n <= Z.of_nat (length l))) as [Hle'|Hgt'].
    + rewrite Z.min_l by exact Hle'. f_equal. lia.
    + rewrite Z.min_r by lia.
      rewrite !take_ge; [reflexivity| |]; rewrite length_drop; lia.
  - rewrite !Z.min_r by lia. rewrite !drop_ge by lia. rewrite !take_nil. reflexivity.
Qed.

Lemma concat_chunks {A} (size : nat) (l : list A) (n : nat) :
  concat ((fun i => take size (drop (i * size) l)) <$> seq 0 n) = take (n * size) l.
Proof.
  induction n as [|n IH]; [reflexivity|].
  rewrite seq_S, fmap_app, concat_app, IH. simpl.
  rewrite app_nil_r, take_take_drop. f_equal. lia.
Qed.

(** X18. With a limit of at least 1, the pages of GET
    /api/benefits/month/... partition the listing: every page reports the
    same total and the same number of pages (at most the total), pages 1 to
    totalPages put end to end are exactly the stored objects of the month
    (and status), in order, a page holds at most limit objects, and a page
    beyond totalPages is empty. *)
Theorem pages_partition (month' year' : string) (limit : Z) (status : option string)
    (employees : list DemoEmployee) (store : DemoStore) :
  1 <= limit ->
  let pageOf p := DemoRoutes.benefitsOfMonth month' year' p limit status employees store in
  let listed :=
    match status with
    | Some s => filter (fun kb : string * Benefit =>
                          statusName (paymentStatus kb.2) = s
                          /\ month kb.2 = monthStr year' month') store
    | None => filter (fun kb : string * Benefit => month kb.2 = monthStr year' month') store
    end in
  exists pages : nat,
    (forall p, dp_totalPages (pageOf p) = Some (Z.of_nat pages)
               /\ dp_total (pageOf p) = length listed)
    /\ (pages <= length listed)%nat
    /\ fst <$> concat ((fun i => dp_benefits (pageOf (Z.of_nat (S i)))) <$> seq 0 pages)
       = listed
    /\ (forall p, 1 <= p -> Z.of_nat (length (dp_benefits (pageOf p))) <= limit)
    /\ (forall p, Z.of_nat pages < p -> dp_benefits (pageOf p) = []).
Proof.
  intros Hlimit pageOf listed.
  set (withData := fun kb : string * Benefit =>
                     (kb, DemoRoutes.employeeData employees (employeeId kb.2))).
  set (all := withData <$> listed).
  assert (Hpage : forall p, pageOf p
            = mkDemoPage (jsSlice ((p - 1) * limit) ((p - 1) * limit + limit) all)
                         (ceilDiv (Z.of_nat (length all)) limit) p (length all)).
  { intros p. subst pageOf all listed. unfold DemoRoutes.benefitsOfMonth.
    destruct status as [s|]; [rewrite list_filter_filter|]; reflexivity. }
  assert (Hlen : length all = length listed) by (subst all; apply length_fmap).
  assert (Hfst : fst <$> all = listed).
  { subst all. rewrite <- list_fmap_compose. clear. induction listed as [|x l IH];
      [reflexivity | simpl; f_equal; exact IH]. }
  set (t := Z.of_nat (length all)) in *.
  set (c := - (- t / limit)).
  pose proof (Z_div_mod_eq_full (- t) limit) as Hdm.
  pose proof (Z.mod_pos_bound (- t) limit ltac:(lia)) as Hmod.
  assert (Ht : 0 <= t) by (subst t; lia).
  assert (Hc0 : 0 <= c) by (subst c; nia).
  assert (Hc1 : t <= c * limit) by (subst c; nia).
  assert (Hc2 : c <= t) by (subst c; nia).
  exists (Z.to_nat c).
  assert (Hslice : forall p, 1 <= p ->
            dp_benefits (pageOf p)
            = take (Z.to_nat limit) (drop (Z.to_nat ((p - 1) * limit)) all)).
  { intros p Hp. rewrite Hpage. simpl. apply jsSlice_page; nia. }
  split; [|split; [|split; [|split]]].
  - intros p. rewrite Hpage. simpl. split; [|exact Hlen].
    unfold ceilDiv. rewrite decide_False by lia. fold t. fold c. f_equal. lia.
  - rewrite <- Hlen. subst t. lia.
  - rewrite <- Hfst. f_equal.
    transitivity (take (Z.to_nat c * Z.to_nat limit) all);
      [|apply take_ge; subst t; nia].
    rewrite <- concat_chunks. f_equal. apply list_fmap_ext. intros i x _.
    rewrite Hslice by lia. do 2 f_equal. nia.
  - intros p Hp. rewrite Hslice by exact Hp. rewrite length_take. lia.
  - intros p Hp. rewrite Hslice by lia. rewrite drop_ge; [apply take_nil|].
    subst t. nia.
Qed.

Lemma pages_partition_witness :
  exists pages : nat,
    dp_totalPages (DemoRoutes.benefitsOfMonth "1" "2024" 1 2 None [] Fixtures.demo_workflow)
    = Some (Z.of_nat pages)
    /\ fst <$> concat ((fun i => dp_benefits
                                   (DemoRoutes.benefitsOfMonth "1" "2024" (Z.of_nat (S i)) 2
                                      None [] Fixtures.demo_workflow)) <$> seq 0 pages)
       = Fixtures.demo_workflow.
Proof.
  destruct (pages_partition "1" "2024" 2 None [] Fixtures.demo_workflow ltac:(lia))
    as (pages & Hp & _ & Hall & _).
  exists pages. split; [apply Hp | exact Hall].
Defined.

(** X19. Page 0 is empty for every limit, and with a limit of 0 every
    page is empty and the number of pages is not a finite number. *)
Theorem page_zero_and_limit_zero (month' year' : string) (p limit : Z)
    (status : option string) (employees : list DemoEmployee) (store : DemoStore) :
  dp_benefits (DemoRoutes.benefitsOfMonth month' year' 0 limit status employees store) = []
  /\ dp_benefits (DemoRoutes.benefitsOfMonth month' year' p 0 status employees store) = []
  /\ dp_totalPages (DemoRoutes.benefitsOfMonth month' year' p 0 status employees store) = None.
Proof.
  unfold DemoRoutes.benefitsOfMonth; simpl.
  set (all := _ <$> _). split; [|split; [|reflexivity]].
  - unfold jsSlice.
    replace (Z.to_nat _) with 0%nat; [reflexivity|].
    destruct (decide ((0 - 1) * limit < 0)), (decide ((0 - 1) * limit + limit < 0)); lia.
  - unfold jsSlice. rewrite Z.mul_0_r, Z.add_0_l.
    rewrite !decide_False by lia. replace (Z.to_nat _) with 0%nat by lia. reflexivity.
Qed.

Lemma list_find_key_insert (store : DemoStore) (i : nat) (k0 : string) (b0 b' : Benefit)
    (id : string) :
  store !! i = Some (k0, b0) ->
  list_find (fun x => x.1 = id) (<[i := (k0, b')]> store)
  = match list_find (fun x => x.1 = id) store with
    | Some (j, kb) => Some (j, if decide (j = i) then (k0, b') else kb)
    | None => None
    end.
Proof.
  revert i. induction store as [|x l IH]; intros i Hi; [discriminate|].
  destruct i as [|i]; simpl in *.
  - injection Hi as ->. simpl.
    destruct (decide (k0 = id)); simpl; [reflexivity|].
    destruct (list_find _ l) as [[j kb]|]; reflexivity.
  - destruct (decide (x.1 = id)); simpl; [reflexivity|].
    rewrite (IH i Hi). destruct (list_find _ l) as [[j kb]|]; simpl; [|reflexivity].
    destruct (decide (j = i)), (decide (S j = S i)); try lia; reflexivity.
Qed.

Lemma sendStep_cases (uid : string) (clock : nat -> Z) (st : Demo.SendLoop) (id : string) :
  Demo.sendStep uid clock st id = st
  \/ exists i b t ref,
       Demo.sl_store st !! i = Some (id, b)
       /\ list_find (fun kb : string * Benefit => kb.1 = id) (Demo.sl_store st)
          = Some (i, (id, b))
       /\ paymentStatus b = Approved /\ sent (flashPayment b) = false
       /\ let b' := set_flashPayment
                      (mkFlash true (Some t) (Some uid) (Some ref) FlashProcessing) b in
          Demo.sendStep uid clock st id
          = Demo.mkSendLoop (<[i := (id, b')]> (Demo.sl_store st))
              (Demo.sl_totalAmount st + Demo.benefitAmount b')
              (S (Demo.sl_sentCount st))
              (Demo.sl_employeeData st ++
                 [mkEmployeeDatum (employeeId b') (Demo.benefitAmount b')
                    (Demo.orZero (vr_finalAmount (valeRefeicao b')))
                    (Demo.orZero (vt_finalAmount (valeTransporte b')))
                    (Demo.orZero (mob_monthlyValue (mobilidade b')))])
              (Demo.sl_tick st + 3).
Proof.
  unfold Demo.sendStep.
  destruct (list_find _ (Demo.sl_store st)) as [[i [k b]]|] eqn:Hf; [|left; reflexivity].
  destruct (decide _) as [[Hst Hsent]|]; [|left; reflexivity].
  right. pose proof Hf as Hf'. apply list_find_Some in Hf' as (Hi & Hk & _).
  simpl in Hk. subst k. eexists i, b, _, _. repeat split; try eassumption.
Qed.

Lemma sendStep_settles (uid : string) (clock : nat -> Z) (st : Demo.SendLoop) (id : string) :
  settled id (Demo.sl_store (Demo.sendStep uid clock st id))
  /\ forall id', settled id' (Demo.sl_store st) ->
                 settled id' (Demo.sl_store (Demo.sendStep uid clock st id)).
Proof.
  destruct (sendStep_cases uid clock st id) as [Hsame|(i & b & t & ref & Hi & Hf & Hst & Hsent & Hstep)].
  - rewrite Hsame. split; [|auto].
    unfold Demo.sendStep in Hsame. unfold settled.
    destruct (list_find _ (Demo.sl_store st)) as [[i [k b]]|]; [|exact I].
    destruct (decide _) as [Hs|Hn]; [|exact Hn].
    exfalso. apply (f_equal Demo.sl_sentCount) in Hsame. simpl in Hsame. lia.
  - cbv zeta in Hstep. rewrite Hstep. simpl. unfold settled. split.
    + rewrite (list_find_key_insert _ i id b _ id Hi), Hf. rewrite decide_True by reflexivity.
      intros [_ Hs]. discriminate Hs.
    + intros id' Hset. rewrite (list_find_key_insert _ i id b _ id' Hi).
      destruct (list_find (fun kb : string * Benefit => kb.1 = id') (Demo.sl_store st))
        as [[j [k' b']]|]; [|exact I].
      destruct (decide (j = i)); [|exact Hset]. intros [_ Hs]. discriminate Hs.
Qed.

Lemma sendLoop_settles (uid : string) (clock : nat -> Z) (ids : list string) :
  forall st : Demo.SendLoop,
  (forall id, id ∈ ids -> settled id (Demo.sl_store (foldl (Demo.sendStep uid clock) st ids)))
  /\ (forall id, settled id (Demo.sl_store st) ->
                 settled id (Demo.sl_store (foldl (Demo.sendStep uid clock) st ids))).
Proof.
  induction ids as [|id ids IH]; intros st; simpl.
  - split; [intros id Hin; inversion Hin | auto].
  - destruct (IH (Demo.sendStep uid clock st id)) as [IH1 IH2].
    destruct (sendStep_settles uid clock st id) as [S1 S2].
    split.
    + intros id' Hin. apply elem_of_cons in Hin as [->|Hin]; [apply IH2, S1 | apply IH1, Hin].
    + intros id' Hset. apply IH2, S2, Hset.
Qed.

Lemma sendLoop_settled_noop (uid : string) (clock : nat -> Z) (ids : list string)
    (st : Demo.SendLoop) :
  (forall id, id ∈ ids -> settled id (Demo.sl_store st)) ->
  foldl (Demo.sendStep uid clock) st ids = st.
Proof.
  induction ids as [|id ids IH]; intros Hset; [reflexivity|]. simpl.
  assert (Hstep : Demo.sendStep uid clock st id = st).
  { pose proof (Hset id ltac:(left)) as Hs. unfold settled in Hs. unfold Demo.sendStep.
    destruct (list_find _ (Demo.sl_store st)) as [[i [k b]]|]; [|reflexivity].
    destruct (decide _) as [Hd|]; [destruct (Hs Hd) | reflexivity]. }
  rewrite Hstep. apply IH. intros id' Hin. apply Hset. right. exact Hin.
Qed.

(** X20. The demo server submits an object at most once: after POST
    /api/benefits/send-to-flash for a list of ids (repetitions included), a
    second request for any of those ids sends nothing, leaves the store as
    it is and reports 0 benefits and a total of 0. *)
Theorem demo_sendToFlash_never_twice (ids ids2 : list string) (uid uid2 : string)
    (clock clock2 : nat -> Z) (store : DemoStore) :
  ids2 ⊆ ids ->
  Demo.sendToFlash ids2 uid2 clock2 (Demo.sendToFlash ids uid clock store).1
  = ((Demo.sendToFlash ids uid clock store).1,
     Ok (mkFlashBody "0 benefits sent to Flash"
           (mkFlashResponse true ("FLASH-" +:+ pretty (clock2 0%nat)) 0 0 FlashProcessing)
           0 [])).
Proof.
  intros Hsub. unfold Demo.sendToFlash at 1. simpl.
  set (store1 := Demo.sl_store (foldl (Demo.sendStep uid clock)
                                      (Demo.mkSendLoop store 0 0 [] 0) ids)).
  rewrite (sendLoop_settled_noop uid2 clock2 ids2 (Demo.mkSendLoop store1 0 0 [] 0)).
  - reflexivity.
  - intros id Hin. simpl. subst store1.
    apply (proj1 (sendLoop_settles uid clock ids _)), Hsub, Hin.
Qed.

Lemma demo_sendToFlash_never_twice_witness :
  (Demo.sendToFlash ["a2"; "a1"] "hr-2" Fixtures.clock0
     (Demo.sendToFlash ["a1"; "a2"; "a1"] "hr-1" Fixtures.clock0 Fixtures.demo_approved).1).1
  = (Demo.sendToFlash ["a1"; "a2"; "a1"] "hr-1" Fixtures.clock0 Fixtures.demo_approved).1.
Proof.
  rewrite (demo_sendToFlash_never_twice ["a1"; "a2"; "a1"] ["a2"; "a1"] "hr-1" "hr-2"
             Fixtures.clock0 Fixtures.clock0 Fixtures.demo_approved).
  - reflexivity.
  - apply (bool_decide_unpack _). vm_compute. reflexivity.
Defined.

Lemma sendLoop_shape (uid : string) (clock : nat -> Z) (ids : list string) :
  forall st : Demo.SendLoop,
  let r := foldl (Demo.sendStep uid clock) st ids in
  (Demo.sl_sentCount st = length (Demo.sl_employeeData st) ->
   Demo.sl_totalAmount st = sumOver ed_amount (Demo.sl_employeeData st) ->
   Demo.sl_sentCount r = length (Demo.sl_employeeData r)
   /\ Demo.sl_totalAmount r = sumOver ed_amount (Demo.sl_employeeData r))
  /\ length (Demo.sl_store r) = length (Demo.sl_store st)
  /\ forall i kb, Demo.sl_store st !! i = Some kb ->
       exists b', Demo.sl_store r !! i = Some (kb.1, b')
                  /\ (b' = kb.2
                      \/ sendableB kb.2
                         /\ exists t ref,
                              b' = set_flashPayment
                                     (mkFlash true (Some t) (Some uid) (Some ref)
                                              FlashProcessing) kb.2).
Proof.
  induction ids as [|id ids IH]; intros st; simpl.
  - split; [auto|]. split; [reflexivity|]. intros i [k b] Hi. exists b. auto.
  - destruct (IH (Demo.sendStep uid clock st id)) as (IH1 & IHlen & IH2).
    destruct (sendStep_cases uid clock st id)
      as [Hsame|(i0 & b0 & t & ref & Hi0 & Hf & Hst & Hsent & Hstep)].
    + rewrite Hsame in *. split; [assumption|]. split; assumption.
    + cbv zeta in Hstep. split; [|split].
      * intros Hc Ht. apply IH1; rewrite Hstep; simpl.
        -- rewrite length_app. simpl. lia.
        -- rewrite Ht. clear. induction (Demo.sl_employeeData st) as [|x l IHl];
             unfold sumOver in *; simpl; [lia | rewrite <- IHl; lia].
      * rewrite IHlen, Hstep. simpl. apply length_insert.
      * intros i [k b] Hi. rewrite Hstep in IH2. rewrite Hstep. simpl in IH2.
        destruct (decide (i = i0)) as [->|Hne].
        -- rewrite Hi0 in Hi. injection Hi as Hk Hb. subst k b. simpl.
           destruct (IH2 i0 (id, set_flashPayment
                       (mkFlash true (Some t) (Some uid) (Some ref) FlashProcessing) b0))
             as (b' & Hb' & Hcase).
           { apply list_lookup_insert_eq. eapply lookup_lt_Some, Hi0. }
           simpl in Hb'. exists b'. split; [exact Hb'|]. right. split; [split; assumption|].
           destruct Hcase as [->|[[_ Hs] _]]; [eauto | discriminate Hs].
        -- apply (IH2 i (k, b)). rewrite list_lookup_insert_ne by congruence. exact Hi.
Qed.

(** X21. The demo server's submission accounts for what it sends: the
    employeeCount is the number of entries of employeeData and the
    totalAmount the sum of their amounts.  It keeps every object in place
    and alters only objects that were Approved and unsent, and those only in
    their Flash data (sent, sentAt, sentBy, a reference, Processing). *)
Theorem demo_sendToFlash_accounting (ids : list string) (uid : string)
    (clock : nat -> Z) (store : DemoStore) (i : nat) :
  let out := Demo.sendToFlash ids uid clock store in
  match out.2 with
  | Ok body =>
      fr_employeeCount (fb_flashResponse body) = length (fb_employeeData body)
      /\ fb_totalAmount body = sumOver ed_amount (fb_employeeData body)
      /\ fr_totalAmount (fb_flashResponse body) = fb_totalAmount body
  | _ => False
  end
  /\ match store !! i with
     | Some (id, b) =>
         exists b',
           out.1 !! i = Some (id, b')
           /\ (b' = b
               \/ (paymentStatus b = Approved /\ sent (flashPayment b) = false)
                  /\ exists t ref,
                       b' = set_flashPayment
                              (mkFlash true (Some t) (Some uid) (Some ref)
                                       FlashProcessing) b)
     | None => out.1 !! i = None
     end.
Proof.
  intros out. subst out. unfold Demo.sendToFlash. simpl.
  destruct (sendLoop_shape uid clock ids (Demo.mkSendLoop store 0 0 [] 0))
    as (Hacc & Hlen & Hlook).
  destruct (Hacc eq_refl eq_refl) as [Hc Ht]. simpl in *.
  split; [auto|].
  destruct (store !! i) as [[id b]|] eqn:Hi.
  - exact (Hlook i (id, b) Hi).
  - apply lookup_ge_None. apply lookup_ge_None in Hi. lia.
Qed.

Lemma identity_eq (store store' : DemoStore) :
  (forall i, identity <$> store' !! i = identity <$> store !! i) ->
  identity <$> store' = identity <$> store.
Proof.
  intros H. apply list_eq. intros i. rewrite !list_lookup_fmap. apply H.
Qed.

Lemma demo_sendToFlash_identity (ids : list string) (uid : string)
    (clock : nat -> Z) (store : DemoStore) (i : nat) :
  identity <$> (Demo.sendToFlash ids uid clock store).1 !! i = identity <$> store !! i.
Proof.
  unfold Demo.sendToFlash. simpl.
  destruct (sendLoop_shape uid clock ids (Demo.mkSendLoop store 0 0 [] 0))
    as (_ & Hlen & Hlook). simpl in *.
  destruct (store !! i) as [[id b]|] eqn:Hi.
  - destruct (Hlook i (id, b) Hi) as (b' & -> & [->|[_ (t & ref & ->)]]); reflexivity.
  - replace (Demo.sl_store _ !! i) with (@None (string * Benefit)); [reflexivity|].
    symmetry. apply lookup_ge_None. apply lookup_ge_None in Hi. lia.
Qed.

(** X22. The demo server's writing benefit routes neither add nor remove
    nor reorder objects, and never change an object's id, employee or
    month: deduction, approve, send-to-flash and calculate on a stored
    object keep the sequence of identities of the store. *)
Theorem demo_routes_keep_objects (store : DemoStore) (ids : list string)
    (uid : string) (clock : nat -> Z) (benefitId benefitType : string)
    (date' amount' : Z) (reason' : string) (type' : option DeductionType) (now : Z)
    (e m y : string) (vr : option VRBody) (vt : option VTBody) (mob : option MobBody) :
  identity <$> (Demo.deduction benefitId benefitType date' amount' reason' type' uid now
                               store).1
  = identity <$> store
  /\ identity <$> (Demo.approve ids uid store).1 = identity <$> store
  /\ identity <$> (Demo.sendToFlash ids uid clock store).1 = identity <$> store
  /\ match Demo.calculate e m y vr vt mob uid store with
     | Some r => identity <$> r.1 = identity <$> store
     | None => True
     end.
Proof.
  assert (Hins : forall (s : DemoStore) i id b b',
             s !! i = Some (id, b) -> employeeId b' = employeeId b -> month b' = month b ->
             identity <$> <[i := (id, b')]> s = identity <$> s).
  { intros s i id b b' Hi He Hm. rewrite list_fmap_insert. apply list_insert_id.
    rewrite list_lookup_fmap, Hi. unfold identity; simpl. rewrite He, Hm. reflexivity. }
  split; [|split; [|split]].
  - unfold Demo.deduction.
    destruct (list_find _ store) as [[i [id b]]|] eqn:Hf; [|reflexivity].
    apply list_find_Some in Hf as (Hi & _). simpl.
    apply (Hins store i id b _ Hi); unfold Demo.addDeduction;
      destruct (String.eqb benefitType "VR"); try reflexivity;
      destruct (String.eqb benefitType "VT"); reflexivity.
  - apply identity_eq. intros i. unfold Demo.approve.
    destruct (demo_approve_loop uid ids store 0) as (Hids & Hlook & _).
    destruct (foldl (Demo.approveStep uid) (store, 0%nat) ids) as [store' count].
    simpl in *. destruct (store !! i) as [kb|] eqn:Hkb.
    + rewrite (Hlook i kb Hkb). simpl. destruct (decide _); reflexivity.
    + replace (store' !! i) with (@None (string * Benefit)); [reflexivity|].
      symmetry. apply lookup_ge_None. apply lookup_ge_None in Hkb.
      rewrite <- (length_fmap fst store'), Hids, length_fmap. exact Hkb.
  - apply identity_eq. intros i.
    apply demo_sendToFlash_identity.
  - unfold Demo.calculate.
    destruct (list_find _ store) as [[i [id b]]|] eqn:Hf; [|exact I].
    apply list_find_Some in Hf as (Hi & _). simpl.
    assert (Hcalc : forall x, employeeId (Demo.calculateAmounts x) = employeeId x
                              /\ month (Demo.calculateAmounts x) = month x).
    { intros x. rewrite demo_calculateAmounts_model.
      unfold Model.calculateVT, Model.calculateVR.
      destruct (vr_enabled (valeRefeicao x)); simpl;
        destruct (vt_enabled (valeTransporte x)); simpl; split; reflexivity. }
    apply (Hins store i id b _ Hi); simpl.
    + rewrite (proj1 (Hcalc _)). destruct vr, vt, mob; reflexivity.
    + rewrite (proj2 (Hcalc _)). destruct vr, vt, mob; reflexivity.
Qed.
